(** * HoyaList homeowner web server: lead capture and app-store redirects

    A shallow embedding of [server.js] (and of its earlier variant, the
    second source file of the repository) together with the properties the
    specification states about them.

    JavaScript strings are sequences of code units.  They are modelled by
    [string], one [ascii] per code unit, so the development covers the code
    units U+0000..U+00FF; on that range [trim], [toLowerCase], the classes
    [\s] and [\d] and [encodeURIComponent] are modelled exactly as
    ECMAScript defines them. *)

From Stdlib Require Import Ascii String ZArith NArith Lia Bool List.
From Stdlib Require Import SpecFloat.
From Stdlib Require Import DecimalString.
From stdpp Require Import base option list strings gmap.

Local Open Scope Z_scope.
Local Open Scope nat_scope.
Local Open Scope stdpp_scope.

(* ===================================================================== *)
(** * JavaScript primitives used by the server *)
(* ===================================================================== *)

Module Js.

Definition code (c : ascii) : N := N_of_ascii c.

Definition inRange (lo hi : N) (c : ascii) : bool :=
  ((lo <=? code c) && (code c <=? hi))%N.

(** [WhiteSpace] and [LineTerminator] code units below U+0100: TAB, LF, VT,
    FF, CR, SP and NBSP.  This is the set [trim] strips and [\s] matches. *)
Definition isWhiteSpace (c : ascii) : bool :=
  inRange 9 13 c || (code c =? 32)%N || (code c =? 160)%N.

(** [\d] *)
Definition isDigit (c : ascii) : bool := inRange 48 57 c.

(** A string is falsy exactly when it is empty. *)
Definition truthy (s : string) : bool :=
  match s with EmptyString => false | String _ _ => true end.

Fixpoint trimStart (s : string) : string :=
  match s with
  | EmptyString => EmptyString
  | String c s' => if isWhiteSpace c then trimStart s' else s
  end.

Fixpoint trimEnd (s : string) : string :=
  match s with
  | EmptyString => EmptyString
  | String c s' =>
      match trimEnd s' with
      | EmptyString => if isWhiteSpace c then EmptyString else String c EmptyString
      | t => String c t
      end
  end.

(** [String.prototype.trim] *)
Definition trim (s : string) : string := trimEnd (trimStart s).

(** The first, respectively the last, code unit of [s] is white space. *)
Definition startsWithSpace (s : string) : bool :=
  match s with
  | EmptyString => false
  | String c _ => isWhiteSpace c
  end.

Fixpoint endsWithSpace (s : string) : bool :=
  match s with
  | EmptyString => false
  | String c EmptyString => isWhiteSpace c
  | String _ s' => endsWithSpace s'
  end.

(** Upper-case letters below U+0100: A-Z, and U+00C0..U+00DE without the
    multiplication sign U+00D7.  Each one lower-cases to itself + 0x20. *)
Definition isUpper (c : ascii) : bool :=
  inRange 65 90 c || (inRange 192 222 c && negb (code c =? 215)%N).

Definition lowerChar (c : ascii) : ascii :=
  if isUpper c then ascii_of_N (code c + 32) else c.

(** [String.prototype.toLowerCase] *)
Fixpoint toLowerCase (s : string) : string :=
  match s with
  | EmptyString => EmptyString
  | String c s' => String (lowerChar c) (toLowerCase s')
  end.

Fixpoint startsWith (p s : string) : bool :=
  match p, s with
  | EmptyString, _ => true
  | String a p', String b s' => Ascii.eqb a b && startsWith p' s'
  | String _ _, EmptyString => false
  end.

(** [String.prototype.includes] *)
Fixpoint includes (s needle : string) : bool :=
  startsWith needle s ||
  match s with
  | EmptyString => false
  | String _ s' => includes s' needle
  end.

(** [Array.prototype.includes] on an array of strings *)
Definition arrayIncludes (l : list string) (x : string) : bool :=
  existsb (String.eqb x) l.

(** [s.replace(/\D/g, '')] *)
Fixpoint removeNonDigits (s : string) : string :=
  match s with
  | EmptyString => EmptyString
  | String c s' =>
      if isDigit c then String c (removeNonDigits s') else removeNonDigits s'
  end.

(** [p] holds of every code unit of [s]. *)
Fixpoint every (p : ascii -> bool) (s : string) : bool :=
  match s with
  | EmptyString => true
  | String c s' => p c && every p s'
  end.

(** Numbers are IEEE 754 binary64 values: the two zeros, the two
    infinities, NaN, and the finite numbers [m * 2^e] with a mantissa of at
    most 53 bits. *)
Definition number : Type := spec_float.

Definition NaN : number := S754_nan.

Definition isNaN (n : number) : bool :=
  match n with S754_nan => true | _ => false end.

(** [n < 0] *)
Definition ltZero (n : number) : bool := SFltb n (S754_zero false).

(** The Number for a mathematical integer: the integer itself when it is
    representable, otherwise the nearest representable value, ties going
    to the even mantissa, and an infinity from [2^1024 - 2^970] on.
    [negative] is the sign given to a zero. *)
Definition round (z : Z) (negative : bool) : number :=
  binary_normalize 53 1024 z 0 negative.

Definition ofZ (z : Z) : number := round z false.

(** The Number a decimal literal with [places] digits after the point
    denotes, [m] being its digits read as an integer: [41.7621] is
    [ofDecimal 417621 4].  The quotient is rounded once, both operands
    being exact (fewer than 16 digits each). *)
Definition ofDecimal (m : Z) (places : nat) : number :=
  SFdiv 53 1024 (ofZ m) (ofZ (10 ^ Z.of_nat places)).

(** The integer a Number is, if it is one: [None] for NaN, the infinities
    and the numbers with a fractional part. *)
Definition integerValue (n : number) : option Z :=
  match n with
  | S754_zero _ => Some 0%Z
  | S754_finite s m e =>
      let v := if s then Zneg m else Zpos m in
      if (0 <=? e)%Z then Some (v * 2 ^ e)%Z
      else if (Zpos m mod 2 ^ (- e) =? 0)%Z then Some (v / 2 ^ (- e))%Z
      else None
  | S754_infinity _ | S754_nan => None
  end.

Definition digitValue (c : ascii) : N := (code c - 48)%N.

(** Mathematical value of a string of decimal digits, most significant
    digit first. *)
Fixpoint decimalFrom (acc : N) (s : string) : N :=
  match s with
  | EmptyString => acc
  | String c s' => decimalFrom (10 * acc + digitValue c)%N s'
  end.

Definition decimal (s : string) : N := decimalFrom 0 s.

Fixpoint takeDigits (s : string) : string :=
  match s with
  | EmptyString => EmptyString
  | String c s' => if isDigit c then String c (takeDigits s') else EmptyString
  end.

(** [parseInt(s, 10)]: skip leading white space, read an optional sign,
    then the longest prefix of decimal digits; [NaN] when that prefix is
    empty, otherwise the Number for the signed integer read, which is [-0]
    for a negative zero. *)
Definition parseInt10 (s : string) : number :=
  let str := trimStart s in
  let '(negative, rest) :=
    match str with
    | String "-" r => (true, r)
    | String "+" r => (false, r)
    | _ => (false, str)
    end in
  let digits := takeDigits rest in
  if truthy digits
  then round (if negative then - Z.of_N (decimal digits) else Z.of_N (decimal digits))
             negative
  else NaN.

Definition hexDigit (n : N) : ascii :=
  if (n <? 10)%N then ascii_of_N (48 + n) else ascii_of_N (55 + n).

Definition percent (byte : N) : string :=
  String "%" (String (hexDigit (byte / 16)) (String (hexDigit (byte mod 16)) EmptyString)).

(** Characters [encodeURIComponent] leaves alone: letters, digits and
    [- _ . ! ~ * ' ( )]. *)
Definition isUnreserved (c : ascii) : bool :=
  inRange 65 90 c || inRange 97 122 c || inRange 48 57 c ||
  existsb (Ascii.eqb c) ["-"; "_"; "."; "!"; "~"; "*"; "'"; "("; ")"]%char.

(** Every other code unit is written as the percent-escaped bytes of its
    UTF-8 encoding: one byte below U+0080, two bytes from there on. *)
Definition encodeChar (c : ascii) : string :=
  if isUnreserved c then String c EmptyString
  else if (code c <? 128)%N then percent (code c)
  else percent (192 + code c / 64) +:+ percent (128 + code c mod 64).

Fixpoint encodeURIComponent (s : string) : string :=
  match s with
  | EmptyString => EmptyString
  | String c s' => encodeChar c +:+ encodeURIComponent s'
  end.

(** Decimal rendering of a non-negative integer inside a template string. *)
Definition showN (n : N) : string :=
  NilEmpty.string_of_uint (N.to_uint n).

End Js.


(* ===================================================================== *)
(** * Regular expressions *)
(* ===================================================================== *)

(** The three patterns of the server are anchored at both ends and use only
    character classes, concatenation and bounded or unbounded repetition.
    They are written in the abstract syntax below and run by a matcher
    built on Brzozowski derivatives. *)

Module RegExp.

Inductive regex : Type :=
| Void
| Eps
| Class (p : ascii -> bool)
| Seq (r1 r2 : regex)
| Alt (r1 r2 : regex)
| Star (r : regex).

(** [r+] *)
Definition Plus (r : regex) : regex := Seq r (Star r).

(** [r{n}] *)
Fixpoint Times (n : nat) (r : regex) : regex :=
  match n with
  | O => Eps
  | S n' => Seq r (Times n' r)
  end.

(** [r{0,k}] *)
Fixpoint UpTo (k : nat) (r : regex) : regex :=
  match k with
  | O => Eps
  | S k' => Alt Eps (Seq r (UpTo k' r))
  end.

(** [r{n,}] *)
Definition AtLeast (n : nat) (r : regex) : regex := Seq (Times n r) (Star r).

(** [r{n,m}] *)
Definition Between (n m : nat) (r : regex) : regex :=
  Seq (Times n r) (UpTo (m - n) r).

Fixpoint nullable (r : regex) : bool :=
  match r with
  | Void => false
  | Eps => true
  | Class _ => false
  | Seq r1 r2 => nullable r1 && nullable r2
  | Alt r1 r2 => nullable r1 || nullable r2
  | Star _ => true
  end.

Fixpoint deriv (c : ascii) (r : regex) : regex :=
  match r with
  | Void => Void
  | Eps => Void
  | Class p => if p c then Eps else Void
  | Seq r1 r2 =>
      if nullable r1
      then Alt (Seq (deriv c r1) r2) (deriv c r2)
      else Seq (deriv c r1) r2
  | Alt r1 r2 => Alt (deriv c r1) (deriv c r2)
  | Star r1 => Seq (deriv c r1) (Star r1)
  end.

(** [/^r$/.test(s)]: the whole of [s] has to match [r]. *)
Fixpoint test (r : regex) (s : string) : bool :=
  match s with
  | EmptyString => nullable r
  | String c s' => test (deriv c r) s'
  end.

Fixpoint concat (ss : list string) : string :=
  match ss with
  | [] => EmptyString
  | s :: ss' => s +:+ concat ss'
  end.

(** The language of a regular expression, to state what [test] decides. *)
Fixpoint lang (r : regex) : string -> Prop :=
  match r with
  | Void => fun _ => False
  | Eps => fun s => s = EmptyString
  | Class p => fun s => exists c, s = String c EmptyString /\ p c = true
  | Seq r1 r2 => fun s => exists s1 s2, s = s1 +:+ s2 /\ lang r1 s1 /\ lang r2 s2
  | Alt r1 r2 => fun s => lang r1 s \/ lang r2 s
  | Star r1 => fun s => exists ss, s = concat ss /\ Forall (lang r1) ss
  end.

(** The character classes of the server's patterns. *)
Definition digit : regex := Class Js.isDigit.                       (* \d *)
Definition nonZeroDigit : regex := Class (Js.inRange 49 57).        (* [1-9] *)
Definition char (c : ascii) : regex := Class (Ascii.eqb c).
Definition notSpaceAt (c : ascii) : bool :=                         (* [^\s@] *)
  negb (Js.isWhiteSpace c || Ascii.eqb c "@").

End RegExp.

(* ===================================================================== *)
(** * The form body and its normalization ([app.post('/lead')], first part) *)
(* ===================================================================== *)

(** [express.urlencoded({ extended: true })] turns the posted form into an
    object whose values are strings, arrays or nested objects. *)
#[warnings="-register-all"] Inductive formValue : Type :=
| FStr (s : string)
| FArr (items : list formValue)
| FObj (fields : list (string * formValue)).

Fixpoint join (sep : string) (l : list string) : string :=
  match l with
  | [] => EmptyString
  | [x] => x
  | x :: l' => x +:+ sep +:+ join sep l'
  end.

(** The object has a key [k] of its own. *)
Definition hasOwn (k : string) (fields : list (string * formValue)) : bool :=
  existsb (fun kv => String.eqb (fst kv) k) fields.

(** [String(v)]; [None] stands for the TypeError it throws.  A string is
    itself.  An array converts its items one after the other and joins
    them with commas.  An object converts through its [toString]: the one
    of [Object.prototype], which answers "[object Object]", unless the
    object has a key [toString] of its own; the body parser keeps such a
    key, the value under it is parsed data and not a function, [valueOf]
    returns the object itself, and the conversion throws. *)
Fixpoint toString (v : formValue) : option string :=
  match v with
  | FStr s => Some s
  | FArr items =>
      join "," <$>
      (fix each (l : list formValue) : option (list string) :=
         match l with
         | [] => Some []
         | x :: l' =>
             match toString x with
             | Some s => cons s <$> each l'
             | None => None
             end
         end) items
  | FObj fields =>
      if hasOwn "toString" fields then None else Some "[object Object]"
  end.


Definition truthyValue (v : formValue) : bool :=
  match v with
  | FStr s => Js.truthy s
  | FArr _ | FObj _ => true
  end.

(** [String(x || '')] for a property [x] of the body that may be absent;
    [None] when the conversion throws. *)
Definition stringOrEmpty (x : option formValue) : option string :=
  match x with
  | Some v => if truthyValue v then toString v else Some EmptyString
  | None => Some EmptyString
  end.

(** [x === 'yes'] *)
Definition isYes (x : option formValue) : bool :=
  match x with
  | Some (FStr s) => String.eqb s "yes"
  | _ => false
  end.

(** The constants the handler computes before its first check. *)
Record Candidate : Type := {
  publicUserName : string;
  publicUserEmail : string;
  rawPhone : string;
  projectText : string;
  zip : string;
  readyToHire : bool;
  urgent : bool;
  rawBudget : string;
  budgetDigits : string;
  budgetNumber : option Js.number;       (* [None] is [null] *)
  publicUserConcent : bool
}.

Definition digitsOf (rawBudget : string) : string :=
  if Js.truthy rawBudget then Js.removeNonDigits rawBudget else EmptyString.

Definition numberOf (budgetDigits : string) : option Js.number :=
  if Js.truthy budgetDigits then Some (Js.parseInt10 budgetDigits) else None.

(** Lines 120 to 136 of the handler.  [None]: one of the six conversions
    throws. *)
Definition normalize (body : gmap string formValue) : option Candidate :=
  name ← stringOrEmpty (body !! "name");
  email ← stringOrEmpty (body !! "email");
  phone ← stringOrEmpty (body !! "phone");
  project ← stringOrEmpty (body !! "project");
  zip ← stringOrEmpty (body !! "zip");
  budgetText ← stringOrEmpty (body !! "budgetText");
  let rawBudget := Js.trim budgetText in
  let budgetDigits := digitsOf rawBudget in
  Some {| publicUserName := Js.trim name;
          publicUserEmail := Js.toLowerCase (Js.trim email);
          rawPhone := Js.trim phone;
          projectText := Js.trim project;
          zip := Js.trim zip;
          readyToHire := isYes (body !! "readyToHire");
          urgent := isYes (body !! "urgent");
          rawBudget := rawBudget;
          budgetDigits := budgetDigits;
          budgetNumber := numberOf budgetDigits;
          publicUserConcent := isYes (body !! "concent") |}.

(* ===================================================================== *)
(** * Validation ([app.post('/lead')], the six checks) *)
(* ===================================================================== *)

(** [/^[^\s@]+@[^\s@]+\.[^\s@]{2,}$/i].  No white-space character and no
    [@] has a case variant, so the [i] flag changes nothing in the
    negated class. *)
Definition EMAIL_RE : RegExp.regex :=
  RegExp.Seq (RegExp.Plus (RegExp.Class RegExp.notSpaceAt))
    (RegExp.Seq (RegExp.char "@")
       (RegExp.Seq (RegExp.Plus (RegExp.Class RegExp.notSpaceAt))
          (RegExp.Seq (RegExp.char ".")
             (RegExp.AtLeast 2 (RegExp.Class RegExp.notSpaceAt))))).

Definition isValidEmail (email : string) : bool := RegExp.test EMAIL_RE email.

(** [/^\d{5}$/] *)
Definition ZIP_RE : RegExp.regex := RegExp.Times 5 RegExp.digit.

(** [/^\+[1-9]\d{9,14}$/] *)
Definition e164 : RegExp.regex :=
  RegExp.Seq (RegExp.char "+")
    (RegExp.Seq RegExp.nonZeroDigit (RegExp.Between 9 14 RegExp.digit)).

(** One constructor per 400 response of the handler, named as in the
    specification. *)
Inductive ErrorKind : Type :=
| MissingRequired
| InvalidEmail
| ConsentRequired
| InvalidZip
| InvalidPhone
| InvalidBudget.

#[global] Instance ErrorKind_eq_dec : EqDecision ErrorKind.
Proof. solve_decision. Defined.

(** The heading of the HTML fragment sent with each of them. *)
Definition heading (k : ErrorKind) : string :=
  match k with
  | MissingRequired => "Missing information"
  | InvalidEmail => "Email format"
  | ConsentRequired => "Consent required"
  | InvalidZip => "ZIP code format"
  | InvalidPhone => "Phone number format"
  | InvalidBudget => "Budget format"
  end.

(** [isNaN(budgetNumber)] and [budgetNumber < 0]; [null] converts to 0. *)
Definition isNaN' (n : option Js.number) : bool :=
  match n with Some x => Js.isNaN x | None => false end.

Definition ltZero' (n : option Js.number) : bool :=
  match n with Some x => Js.ltZero x | None => false end.

(** The checks of the handler in program order.  The result is the first
    400 response reached, or the value of [publicUserPhone] when the
    [try] block is entered. *)
Definition validate (c : Candidate) : ErrorKind + string :=
  if negb (Js.truthy (publicUserName c)) || negb (Js.truthy (publicUserEmail c)) ||
     negb (Js.truthy (projectText c)) || negb (Js.truthy (zip c))
  then inl MissingRequired
  else if negb (isValidEmail (publicUserEmail c)) then inl InvalidEmail
  else if negb (publicUserConcent c) then inl ConsentRequired
  else if negb (RegExp.test ZIP_RE (zip c)) then inl InvalidZip
  else
    if Js.truthy (rawPhone c) && negb (RegExp.test e164 (rawPhone c))
    then inl InvalidPhone
    else
      let publicUserPhone :=
        if Js.truthy (rawPhone c) then rawPhone c else EmptyString in
      if Js.truthy (rawBudget c) &&
         (negb (Js.truthy (budgetDigits c)) || isNaN' (budgetNumber c) ||
          ltZero' (budgetNumber c))
      then inl InvalidBudget
      else inr publicUserPhone.

(** ** The validator as the specification words it

    An ordered table of checks; the result is the kind of the first check
    that fails. *)
Definition specChecks : list (ErrorKind * (Candidate -> bool)) :=
  [ (MissingRequired, fun c =>
       String.eqb (publicUserName c) "" || String.eqb (publicUserEmail c) "" ||
       String.eqb (projectText c) "" || String.eqb (zip c) "");
    (InvalidEmail, fun c => negb (RegExp.test EMAIL_RE (publicUserEmail c)));
    (ConsentRequired, fun c => negb (publicUserConcent c));
    (InvalidZip, fun c => negb (RegExp.test ZIP_RE (zip c)));
    (InvalidPhone, fun c =>
       negb (String.eqb (rawPhone c) "") && negb (RegExp.test e164 (rawPhone c)));
    (InvalidBudget, fun c =>
       negb (String.eqb (rawBudget c) "") &&
       (String.eqb (budgetDigits c) "" || isNaN' (budgetNumber c) ||
        ltZero' (budgetNumber c))) ].

Fixpoint firstFailure (checks : list (ErrorKind * (Candidate -> bool)))
    (c : Candidate) : option ErrorKind :=
  match checks with
  | [] => None
  | (k, fails) :: rest => if fails c then Some k else firstFailure rest c
  end.

(** ** The malformations of an email the specification lists *)

(** The text after the first occurrence of [c]; [None] if there is none. *)
Fixpoint afterFirst (c : ascii) (s : string) : option string :=
  match s with
  | EmptyString => None
  | String a s' => if Ascii.eqb a c then Some s' else afterFirst c s'
  end.

(** The text after the last occurrence of [c]; [None] if there is none. *)
Fixpoint afterLast (c : ascii) (s : string) : option string :=
  match s with
  | EmptyString => None
  | String a s' =>
      match afterLast c s' with
      | Some t => Some t
      | None => if Ascii.eqb a c then Some s' else None
      end
  end.

Definition noAt (email : string) : Prop := Js.includes email "@" = false.

Definition noDomainDot (email : string) : Prop :=
  forall domain, afterFirst "@" email = Some domain -> Js.includes domain "." = false.

Definition shortAfterFinalDot (email : string) : Prop :=
  forall tail, afterLast "." email = Some tail -> String.length tail < 2.

(** Fewer than 2 characters after the first dot of the domain that is not
    the first character of the domain. *)
Definition shortAfterDomainDot (email : string) : Prop :=
  forall c domain tail,
    afterFirst "@" email = Some (String c domain) ->
    afterFirst "." domain = Some tail ->
    String.length tail < 2.

(* ===================================================================== *)
(** * The geocoder client ([geocodeZipWithGoogle]) *)
(* ===================================================================== *)

(** A JSON value as far as [typeof] tells values apart. *)
Inductive jsvalue : Type :=
| JUndefined
| JNull
| JBool (b : bool)
| JNum (n : Js.number)
| JStr (s : string)
| JObject.

(** [typeof v === 'number'] *)
Definition isNumber (v : jsvalue) : bool :=
  match v with JNum _ => true | _ => false end.

(** The body of a Geocoding API answer.  A property the code reads with
    [?.] or [|| []] may be absent: it is an [option]. *)
Record AddressComponent : Type := {
  long_name : option string;
  short_name : option string;
  types : option (list string)
}.

Record LatLng : Type := { lat : jsvalue; lng : jsvalue }.

Record Geometry : Type := { location : option LatLng }.

Record GeocodeResult : Type := {
  geometry : option Geometry;
  address_components : option (list AddressComponent)
}.

Record GeocodeData : Type := {
  status : option string;
  results : option (list GeocodeResult)
}.

(** What [await fetch(url)] gives: a rejection, or a response with its
    status code and, when [resp.json()] succeeds, the parsed body. *)
Inductive fetchResult : Type :=
| FetchRejects
| Responds (httpStatus : N) (json : option GeocodeData).

(** [resp.ok] *)
Definition ok (httpStatus : N) : bool :=
  ((200 <=? httpStatus) && (httpStatus <=? 299))%N.

(** What the [catch] clause of the handler can receive: an [Error] the
    geocoder constructs, or a rejection of [fetch], of [resp.json()] or of
    [batch.commit()]. *)
Inductive exn : Type :=
| Error (message : string)
| FetchRejected
| JsonRejected
| CommitRejected.

(** All the handler takes from outside: the environment variable, the
    network, the identifier [doc()] generates and whether the store accepts
    the batch. *)
Record World : Type := {
  GOOGLE_GEOCODING_API_KEY : option string;
  fetch : string -> fetchResult;
  autoId : string;
  commitSucceeds : bool
}.

Record GeoResult : Type := {
  latitude : Js.number;
  longitude : Js.number;
  userTown : option string;      (* [None] is [undefined] *)
  userState : option string
}.

(** [!x] for a string that may be [undefined] *)
Definition falsy (x : option string) : bool :=
  match x with Some s => negb (Js.truthy s) | None => true end.

(** [x || ''] *)
Definition orEmpty (x : option string) : string :=
  match x with Some s => s | None => EmptyString end.

Definition typed (t : string) (c : AddressComponent) : bool :=
  Js.arrayIncludes (default [] (types c)) t.

(** The first loop over the address components. *)
Definition scanTownState (components : list AddressComponent)
    : option string * option string :=
  fold_left
    (fun '(userTown, userState) c =>
       (if typed "locality" c then long_name c else userTown,
        if typed "administrative_area_level_1" c then short_name c else userState))
    components (Some EmptyString, Some EmptyString).

(** The second loop, entered when the first one left no town. *)
Definition scanPostalTown (components : list AddressComponent)
    (userTown : option string) : option string :=
  fold_left
    (fun userTown c => if typed "postal_town" c then long_name c else userTown)
    components userTown.

(** The last component of the list that has type [t], to state what the
    loops compute. *)
Fixpoint lastTyped (t : string) (components : list AddressComponent)
    : option AddressComponent :=
  match components with
  | [] => None
  | c :: rest =>
      match lastTyped t rest with
      | Some d => Some d
      | None => if typed t c then Some c else None
      end
  end.

Definition extractTownState (r : GeocodeResult) : option string * option string :=
  let components := default [] (address_components r) in
  let '(userTown, userState) := scanTownState components in
  (if falsy userTown then scanPostalTown components userTown else userTown,
   userState).

Definition geocodeUrl (zip key : string) : string :=
  "https://maps.googleapis.com/maps/api/geocode/json" +:+
  "?address=" +:+ Js.encodeURIComponent (zip +:+ ", USA") +:+
  "&key=" +:+ Js.encodeURIComponent key.

(** [`${data.status}`] *)
Definition showStatus (s : option string) : string :=
  match s with Some s => s | None => "undefined" end.

(** [data.status !== 'OK' || !data.results?.length] *)
Definition lookupFailed (data : GeocodeData) : bool :=
  negb (match status data with Some s => String.eqb s "OK" | None => false end) ||
  match results data with
  | Some (_ :: _) => false
  | Some [] | None => true
  end.

(** The part of [geocodeZipWithGoogle] after [const data = await resp.json()]. *)
Definition readGeocodeData (data : GeocodeData) : exn + GeoResult :=
  if lookupFailed data
  then inl (Error ("Google Geocoding failed: " +:+ showStatus (status data)))
  else
    match results data with
    | Some (r :: _) =>
        let loc := geometry r ≫= location in
        match loc with
        | Some {| lat := JNum la; lng := JNum ln |} =>
            let '(userTown, userState) := extractTownState r in
            inr {| latitude := la; longitude := ln;
                   userTown := userTown; userState := userState |}
        | _ => inl (Error "Invalid lat/lng from Google")
        end
    | _ => inl (Error ("Google Geocoding failed: " +:+ showStatus (status data)))
    end.

(** [geocodeZipWithGoogle]: the URLs requested, in order, and the value
    returned or thrown. *)
Definition geocodeZipWithGoogle (w : World) (zip : string)
    : list string * (exn + GeoResult) :=
  match GOOGLE_GEOCODING_API_KEY w with
  | None => ([], inl (Error "Missing GOOGLE_GEOCODING_API_KEY"))
  | Some key =>
      if negb (Js.truthy key)
      then ([], inl (Error "Missing GOOGLE_GEOCODING_API_KEY"))
      else
        let url := geocodeUrl zip key in
        match fetch w url with
        | FetchRejects => ([url], inl FetchRejected)
        | Responds httpStatus json =>
            if negb (ok httpStatus)
            then ([url], inl (Error ("Google Geocoding HTTP error: " +:+
                                      Js.showN httpStatus)))
            else
              match json with
              | None => ([url], inl JsonRejected)
              | Some data => ([url], readGeocodeData data)
              end
        end
  end.

(* ===================================================================== *)
(** * The document store and the lead handler ([app.post('/lead')]) *)
(* ===================================================================== *)

(** The two source files of the repository. *)
Inductive variant : Type :=
| ServerJs        (* server.js *)
| EarlierServer.  (* the second file, an earlier version of server.js *)

Inductive fieldValue : Type :=
| VString (s : string)
| VNumber (n : Js.number)
| VBoolean (b : bool)
| VNull
| VServerTimestamp.   (* [admin.firestore.FieldValue.serverTimestamp()] *)

(** A document is an object: a finite map from field names to values.  A
    collection maps document identifiers to documents. *)
Record Firestore : Type := {
  PublicUserInfo : gmap string (gmap string fieldValue);
  UserLocation : gmap string (gmap string fieldValue)
}.

Inductive collection : Type := InPublicUserInfo | InUserLocation.

(** [batch.set(ref, data)] *)
Record write : Type := {
  target : collection;
  docId : string;
  data : gmap string fieldValue
}.

Definition applyWrite (db : Firestore) (wr : write) : Firestore :=
  match target wr with
  | InPublicUserInfo =>
      {| PublicUserInfo := <[docId wr := data wr]> (PublicUserInfo db);
         UserLocation := UserLocation db |}
  | InUserLocation =>
      {| PublicUserInfo := PublicUserInfo db;
         UserLocation := <[docId wr := data wr]> (UserLocation db) |}
  end.

(** [await batch.commit()]: the store applies every write of the batch, or
    rejects and applies none. *)
Definition commit (w : World) (db : Firestore) (batch : list write)
    : exn + Firestore :=
  if commitSucceeds w then inr (fold_left applyWrite batch db)
  else inl CommitRejected.

Definition budgetField (n : option Js.number) : fieldValue :=
  match n with Some x => VNumber x | None => VNull end.

(** The object set on [publicDocRef]. *)
Definition publicPayload (v : variant) (publicUserUID publicUserPhone : string)
    (c : Candidate) : gmap string fieldValue :=
  let common : gmap string fieldValue :=
    <["publicUserUID" := VString publicUserUID]>
    (<["publicUserName" := VString (publicUserName c)]>
    (<["publicUserEmail" := VString (publicUserEmail c)]>
    (<["publicUserPhone" := VString publicUserPhone]>
    (<["projectText" := VString (projectText c)]>
    (<["readyToHire" := VBoolean (readyToHire c)]>
    (<["urgent" := VBoolean (urgent c)]>
    (<["publicUserConcent" := VBoolean (publicUserConcent c)]>
    (<["postedDate" := VServerTimestamp]> ∅)))))))) in
  match v with
  | ServerJs =>
      match budgetNumber c with
      | Some n => <["budgetText" := VNumber n]> common
      | None => common
      end
  | EarlierServer => <["budgetText" := budgetField (budgetNumber c)]> common
  end.

(** The object set on [locationDocRef]. *)
Definition locationPayload (publicUserUID : string) (c : Candidate)
    (geo : GeoResult) : gmap string fieldValue :=
  <["uid" := VString publicUserUID]>
  (<["name" := VString (publicUserName c)]>
  (<["contractor" := VBoolean false]>
  (<["latitude" := VNumber (latitude geo)]>
  (<["longitude" := VNumber (longitude geo)]>
  (<["altitude" := VNumber (Js.ofZ 0)]>
  (<["userState" := VString (orEmpty (userState geo))]>
  (<["userTown" := VString (orEmpty (userTown geo))]>
  (<["zipcode" := VString (zip c)]>
  (<["postedDate" := VServerTimestamp]> ∅))))))))).

Definition leadBatch (v : variant) (publicUserUID publicUserPhone : string)
    (c : Candidate) (geo : GeoResult) : list write :=
  [ {| target := InPublicUserInfo; docId := publicUserUID;
       data := publicPayload v publicUserUID publicUserPhone c |};
    {| target := InUserLocation; docId := publicUserUID;
       data := locationPayload publicUserUID c geo |} ].

(** The responses of the handler.  [Thanks] carries what the success page
    shows: the ZIP code and, in the earlier version, the identifier. *)
Inductive Response : Type :=
| BadRequest (k : ErrorKind)
| Thanks (zipShown : string) (reference : option string)
| SorryNotSaved.

Definition statusCode (r : Response) : N :=
  match r with
  | BadRequest _ => 400
  | Thanks _ _ => 200
  | SorryNotSaved => 500
  end%N.

Record Outcome : Type := {
  response : Response;
  store : Firestore;            (* the store after the request *)
  requests : list string;       (* URLs fetched while handling it *)
  logged : option exn           (* argument of [console.error], if called *)
}.

(** The handler from its first check on (line 139), given the constants
    it has computed. *)
Definition handle (v : variant) (w : World) (db : Firestore) (c : Candidate)
    : Outcome :=
  match validate c with
  | inl k =>
      {| response := BadRequest k; store := db; requests := []; logged := None |}
  | inr publicUserPhone =>
      let '(sent, geo) := geocodeZipWithGoogle w (zip c) in
      match geo with
      | inl err =>
          {| response := SorryNotSaved; store := db; requests := sent;
             logged := Some err |}
      | inr geo =>
          let publicUserUID := autoId w in
          match commit w db (leadBatch v publicUserUID publicUserPhone c geo) with
          | inl err =>
              {| response := SorryNotSaved; store := db; requests := sent;
                 logged := Some err |}
          | inr db' =>
              {| response :=
                   Thanks (zip c)
                     (match v with
                      | ServerJs => None
                      | EarlierServer => Some publicUserUID
                      end);
                 store := db'; requests := sent; logged := None |}
          end
      end
  end.

(** The handler.  [None]: a conversion of lines 120 to 131 throws, outside
    the [try] block and before the first check; the handler then sends no
    response, fetches nothing and writes nothing, and its promise is
    rejected with the TypeError. *)
Definition lead (v : variant) (w : World) (db : Firestore)
    (body : gmap string formValue) : option Outcome :=
  handle v w db <$> normalize body.

(* ===================================================================== *)
(** * The redirect resolver ([app.get('/go')]) *)
(* ===================================================================== *)

Definition PKG : string := "com.hoyalist.hoyalist".
Definition AND_HTTPS : string := "https://play.google.com/store/apps/details?id=" +:+ PKG.
Definition IOS_HTTPS : string := "https://apps.apple.com/us/app/hoyalist/id6740706168".
Definition AND_INTENT : string :=
  "intent://details?id=" +:+ PKG +:+
  "#Intent;scheme=market;package=com.android.vending;" +:+
  "S.browser_fallback_url=" +:+ Js.encodeURIComponent AND_HTTPS +:+ ";end;".
Definition IOS_ITMS : string := "itms-apps://itunes.apple.com/app/id6740706168".

(** Where a browser that is neither Android nor iOS is sent. *)
Definition fallback (v : variant) : string :=
  match v with
  | ServerJs => "/homeowners"
  | EarlierServer => "https://hoyalistapp.com"
  end.

Definition isAndroid (ual : string) : bool := Js.includes ual "android".

Definition isIOS (ual : string) : bool :=
  Js.includes ual "iphone" || Js.includes ual "ipad" || Js.includes ual "ipod".

Definition isInApp (ual : string) : bool :=
  Js.includes ual "fban" || Js.includes ual "fbav" || Js.includes ual "facebook" ||
  Js.includes ual "instagram" || Js.includes ual "tiktok" ||
  Js.includes ual "twitter" || Js.includes ual "snapchat" ||
  Js.includes ual "pinterest" || Js.includes ual "gsa".

(** [t] occurs in [s]; the meaning of [s.includes(t)]. *)
Definition occursIn (t s : string) : Prop := exists a b, s = a +:+ t +:+ b.

Definition inAppTokens : list string :=
  ["fban"; "fbav"; "facebook"; "instagram"; "tiktok"; "twitter"; "snapchat";
   "pinterest"; "gsa"].

Record Redirect : Type := { redirectStatus : N; redirectTo : string }.

(** The handler of [/go]; [userAgent] is [req.headers['user-agent']]. *)
Definition go (v : variant) (userAgent : option string) : Redirect :=
  let ua := orEmpty userAgent in
  let ual := Js.toLowerCase ua in
  if isAndroid ual then
    if negb (isInApp ual) then {| redirectStatus := 302; redirectTo := AND_INTENT |}
    else {| redirectStatus := 302; redirectTo := AND_HTTPS |}
  else if isIOS ual then
    if negb (isInApp ual) then {| redirectStatus := 302; redirectTo := IOS_ITMS |}
    else {| redirectStatus := 302; redirectTo := IOS_HTTPS |}
  else {| redirectStatus := 302; redirectTo := fallback v |}.

(* ===================================================================== *)
(** * The other redirects ([app.get('/')], [app.get('/download')]) *)
(* ===================================================================== *)


(** The handler of [/download]; [userAgent] is [req.headers['user-agent']]. *)
Definition download (v : variant) (userAgent : option string) : Redirect :=
  let ua := Js.toLowerCase (orEmpty userAgent) in
  let IOS_HTTPS := "https://apps.apple.com/us/app/hoyalist/id6740706168" in
  let AND_HTTPS := "https://play.google.com/store/apps/details?id=com.hoyalist.hoyalist" in
  if Js.includes ua "android"
  then {| redirectStatus := 302; redirectTo := AND_HTTPS |}
  else if Js.includes ua "iphone" || Js.includes ua "ipad" || Js.includes ua "ipod"
  then {| redirectStatus := 302; redirectTo := IOS_HTTPS |}
  else {| redirectStatus := 302;
          redirectTo := match v with
                        | ServerJs => "/homeowners"
                        | EarlierServer => "https://hoyalistapp.com"
                        end |}.


(** The names of the form fields the lead handler reads. *)
Definition formFields : list string :=
  ["name"; "email"; "phone"; "project"; "zip"; "readyToHire"; "urgent";
   "budgetText"; "concent"].

(** The text fields among them. *)
Definition textFields : list string :=
  ["name"; "email"; "phone"; "project"; "zip"; "budgetText"].

(** Code units that stand inside a component of a query without ending
    it: the unreserved ones and the percent sign of an escape. *)
Definition urlSafe (c : ascii) : bool := Js.isUnreserved c || Ascii.eqb c "%".

(** Number of occurrences of [c] in [s]. *)
Fixpoint count (c : ascii) (s : string) : nat :=
  match s with
  | EmptyString => 0
  | String a s' => (if Ascii.eqb a c then 1 else 0) + count c s'
  end.

(* ===================================================================== *)
(** * Sample inputs *)
(* ===================================================================== *)

(** A set of form fields that passes every check, used to exercise the
    statements above and below. *)
Definition sampleBody : gmap string formValue :=
  <["name" := FStr " Ann Lee "]>
  (<["email" := FStr "Ann.Lee@Example.com"]>
  (<["phone" := FStr "+18885551234"]>
  (<["project" := FStr "Replace the porch roof"]>
  (<["zip" := FStr "06119"]>
  (<["budgetText" := FStr "2,500"]>
  (<["concent" := FStr "yes"]> ∅)))))).


(** A budget of 310 digits: 1 followed by 309 zeros. *)
Definition hugeBudget : string :=
  String "1" (string_of_list_ascii (repeat "0"%char 309)).

(** User agents of Chrome on Android, of the Facebook in-app browser on
    Android, of Safari on an iPhone, of Instagram on an iPhone and of
    Chrome on Windows. *)
Definition uaAndroid : string :=
  "Mozilla/5.0 (Linux; Android 13; Pixel 7) AppleWebKit/537.36 (KHTML, like Gecko) Chrome/120.0.0.0 Mobile Safari/537.36".
Definition uaAndroidFacebook : string :=
  "Mozilla/5.0 (Linux; Android 13; Pixel 7) AppleWebKit/537.36 (KHTML, like Gecko) Chrome/120.0.0.0 Mobile Safari/537.36 [FBAN/FB4A;FBAV/441.0.0.23.113;]".
Definition uaIPhone : string :=
  "Mozilla/5.0 (iPhone; CPU iPhone OS 17_1 like Mac OS X) AppleWebKit/605.1.15 (KHTML, like Gecko) Version/17.1 Mobile/15E148 Safari/604.1".
Definition uaIPhoneInstagram : string :=
  "Mozilla/5.0 (iPhone; CPU iPhone OS 17_1 like Mac OS X) AppleWebKit/605.1.15 (KHTML, like Gecko) Mobile/15E148 Instagram 312.0.0.19.117".
Definition uaDesktop : string :=
  "Mozilla/5.0 (Windows NT 10.0; Win64; x64) AppleWebKit/537.36 (KHTML, like Gecko) Chrome/120.0.0.0 Safari/537.36".

(** A Geocoding API answer for ZIP code 06119. *)
Definition sampleResult : GeocodeResult :=
  {| geometry :=
       Some {| location := Some {| lat := JNum (Js.ofDecimal 417621 4);
                                   lng := JNum (Js.ofDecimal (-727420) 4) |} |};
     address_components :=
       Some [ {| long_name := Some "06119"; short_name := Some "06119";
                 types := Some ["postal_code"] |};
              {| long_name := Some "West Hartford";
                 short_name := Some "West Hartford";
                 types := Some ["locality"; "political"] |};
              {| long_name := Some "Connecticut"; short_name := Some "CT";
                 types := Some ["administrative_area_level_1"; "political"] |} ] |}.

Definition sampleData : GeocodeData :=
  {| status := Some "OK"; results := Some [sampleResult] |}.

(** A world in which the key is set, the lookup returns [sampleData] and
    the store accepts the batch. *)
Definition sampleWorld : World :=
  {| GOOGLE_GEOCODING_API_KEY := Some "test-key";
     fetch := fun _ => Responds 200 (Some sampleData);
     autoId := "Xq3mT0aPz7LdK2uVw9Yb";
     commitSucceeds := true |}.

(** A result whose locality component has an empty name, next to a postal
    town. *)
Definition emptyLocalityResult : GeocodeResult :=
  {| geometry :=
       Some {| location := Some {| lat := JNum (Js.ofDecimal 535933 4);
                                   lng := JNum (Js.ofDecimal (-22966) 4) |} |};
     address_components :=
       Some [ {| long_name := Some ""; short_name := Some "";
                 types := Some ["locality"; "political"] |};
              {| long_name := Some "Bury"; short_name := Some "Bury";
                 types := Some ["postal_town"] |} ] |}.

Definition emptyStore : Firestore :=
  {| PublicUserInfo := ∅; UserLocation := ∅ |}.

(* ===================================================================== *)
(** * Facts about strings *)
(* ===================================================================== *)

Section StringFacts.

Implicit Types (s t u : string) (c : ascii).

Lemma app_nil_l s : "" +:+ s = s.
Proof. reflexivity. Qed.

Lemma app_cons c s t : String c s +:+ t = String c (s +:+ t).
Proof. reflexivity. Qed.

Lemma app_nil_r s : s +:+ "" = s.
Proof. induction s as [|c s IH]; [reflexivity|]. rewrite app_cons, IH. reflexivity. Qed.

Lemma app_assoc s t u : (s +:+ t) +:+ u = s +:+ (t +:+ u).
Proof.
  induction s as [|c s IH]; [reflexivity|].
  rewrite !app_cons, IH. reflexivity.
Qed.

Lemma app_eq_nil s t : s +:+ t = "" -> s = "" /\ t = "".
Proof. destruct s; [rewrite app_nil_l; auto | rewrite app_cons; discriminate]. Qed.

Lemma length_app s t : String.length (s +:+ t) = String.length s + String.length t.
Proof.
  induction s as [|c s IH]; [reflexivity|].
  rewrite app_cons. simpl. rewrite IH. reflexivity.
Qed.

Lemma truthy_true s : Js.truthy s = true <-> s <> "".
Proof. destruct s; simpl; split; congruence. Qed.

Lemma truthy_false s : Js.truthy s = false <-> s = "".
Proof. destruct s; simpl; split; congruence. Qed.

Lemma truthy_eqb s : negb (Js.truthy s) = String.eqb s "".
Proof. destruct s; reflexivity. Qed.

End StringFacts.

(* ===================================================================== *)
(** * The matcher decides the language *)
(* ===================================================================== *)

Section MatcherCorrect.

Import RegExp.

Lemma nullable_lang r : nullable r = true <-> lang r "".
Proof.
  induction r as [| |p|r1 IH1 r2 IH2|r1 IH1 r2 IH2|r IH]; simpl.
  - split; [discriminate | tauto].
  - tauto.
  - split; [discriminate | intros (c & Hc & _); discriminate].
  - rewrite andb_true_iff, IH1, IH2. split.
    + intros [H1 H2]. exists "", "". auto.
    + intros (s1 & s2 & Heq & H1 & H2).
      symmetry in Heq. apply app_eq_nil in Heq as [-> ->]. auto.
  - rewrite orb_true_iff, IH1, IH2. tauto.
  - split; [|reflexivity]. intros _. exists []. split; [reflexivity | constructor].
Qed.

(** A non-empty word of [r*] starts with a non-empty word of [r]. *)
Lemma star_cons r c s :
  lang (Star r) (String c s) ->
  exists s1 s2, s = s1 +:+ s2 /\ lang r (String c s1) /\ lang (Star r) s2.
Proof.
  simpl. intros (ss & Heq & Hall).
  induction Hall as [|x ss Hx Hall IH]; simpl in Heq; [discriminate|].
  destruct x as [|a x].
  - rewrite app_nil_l in Heq. auto.
  - rewrite app_cons in Heq. injection Heq as -> ->.
    exists x, (RegExp.concat ss). repeat split; [assumption|].
    exists ss. auto.
Qed.

Lemma deriv_lang c r : forall s, lang (deriv c r) s <-> lang r (String c s).
Proof.
  induction r as [| |p|r1 IH1 r2 IH2|r1 IH1 r2 IH2|r IH]; intros s.
  - simpl. tauto.
  - simpl. split; [tauto | discriminate].
  - simpl. destruct (p c) eqn:Hp; simpl.
    + split.
      * intros ->. exists c. auto.
      * intros (a & Heq & _). congruence.
    + split; [tauto|]. intros (a & Heq & Ha). congruence.
  - assert (Hseq : (exists s1 s2, s = s1 +:+ s2 /\ lang (deriv c r1) s1 /\ lang r2 s2) \/
                   (nullable r1 = true /\ lang (deriv c r2) s)
                   <-> lang (Seq r1 r2) (String c s)).
    { simpl. split.
      - intros [(s1 & s2 & -> & H1 & H2) | [Hn H2]].
        + exists (String c s1), s2. rewrite app_cons, <- IH1. auto.
        + exists "", (String c s). rewrite app_nil_l, <- IH2, <- nullable_lang. auto.
      - intros (t1 & t2 & Heq & H1 & H2). destruct t1 as [|a t1].
        + rewrite app_nil_l in Heq. subst t2. right.
          rewrite nullable_lang, IH2. auto.
        + rewrite app_cons in Heq. injection Heq as -> ->. left.
          exists t1, t2. rewrite IH1. auto. }
    rewrite <- Hseq. simpl. destruct (nullable r1); simpl.
    + split; [intros [H|H]; [left|right]; auto | intros [H|[_ H]]; auto].
    + split; [auto | intros [H|[H _]]; [auto | discriminate]].
  - simpl. rewrite IH1, IH2. tauto.
  - split.
    + simpl. intros (s1 & s2 & -> & H1 & ss & -> & Hall).
      exists (String c s1 :: ss). split; [reflexivity|].
      constructor; [apply IH; assumption | assumption].
    + intros H. apply star_cons in H as (s1 & s2 & -> & H1 & H2).
      simpl. exists s1, s2. rewrite IH. auto.
Qed.

(** [test] accepts exactly the words of the language. *)
Lemma test_lang r s : test r s = true <-> lang r s.
Proof.
  revert r. induction s as [|c s IH]; intros r; simpl.
  - apply nullable_lang.
  - rewrite IH. apply deriv_lang.
Qed.

End MatcherCorrect.

(* ===================================================================== *)
(** * What the three patterns accept *)
(* ===================================================================== *)

Section Patterns.

Import RegExp.

Implicit Types (p : ascii -> bool) (s t : string).

Lemma every_app p s t : Js.every p (s +:+ t) = Js.every p s && Js.every p t.
Proof.
  induction s as [|c s IH]; [reflexivity|].
  rewrite app_cons. simpl. rewrite IH, andb_assoc. reflexivity.
Qed.

Lemma lang_seq_class p r s :
  lang (Seq (Class p) r) s <->
  exists c t, s = String c t /\ p c = true /\ lang r t.
Proof.
  simpl. split.
  - intros (s1 & s2 & -> & (c & -> & Hc) & Hr). exists c, s2. auto.
  - intros (c & t & -> & Hc & Hr). exists (String c ""), t.
    split_and!; [reflexivity | exists c; auto | assumption].
Qed.

Lemma lang_class_star p s : lang (Star (Class p)) s <-> Js.every p s = true.
Proof.
  split.
  - simpl. intros (ss & -> & Hall).
    induction Hall as [|x ss (c & -> & Hc) _ IH]; [reflexivity|].
    simpl. rewrite ?app_cons, ?app_nil_l. simpl. rewrite Hc, IH. reflexivity.
  - induction s as [|c s IH]; simpl.
    + intros _. exists []. split; [reflexivity | constructor].
    + rewrite andb_true_iff. intros [Hc Hs].
      destruct (IH Hs) as (ss & -> & Hall).
      exists (String c "" :: ss). split; [reflexivity|].
      constructor; [exists c; auto | assumption].
Qed.

Lemma lang_class_times p n : forall s,
  lang (Times n (Class p)) s <-> String.length s = n /\ Js.every p s = true.
Proof.
  induction n as [|n IH]; intros s.
  - simpl. destruct s; simpl; split; try tauto; try discriminate.
    intros [H _]. discriminate.
  - change (Times (S n) (Class p)) with (Seq (Class p) (Times n (Class p))).
    rewrite lang_seq_class. split.
    + intros (c & t & -> & Hc & Ht). apply IH in Ht as [Hl He].
      simpl. rewrite Hl, Hc, He. auto.
    + destruct s as [|c t]; simpl; [intros [H _]; discriminate|].
      rewrite andb_true_iff. intros [Hl [Hc He]].
      exists c, t. split_and!; [reflexivity | assumption |].
      apply IH. split; congruence.
Qed.

Lemma lang_class_upto p k : forall s,
  lang (UpTo k (Class p)) s <-> String.length s <= k /\ Js.every p s = true.
Proof.
  induction k as [|k IH]; intros s.
  - simpl. destruct s; simpl; split; try tauto; try discriminate; lia.
  - change (UpTo (S k) (Class p))
      with (Alt Eps (Seq (Class p) (UpTo k (Class p)))).
    change (lang (Alt ?a ?b) s) with (lang a s \/ lang b s).
    rewrite lang_seq_class. split.
    + intros [-> | (c & t & -> & Hc & Ht)].
      * simpl. split; [lia | reflexivity].
      * apply IH in Ht as [Hl He]. simpl. rewrite Hc, He. split; [lia | reflexivity].
    + destruct s as [|c t]; simpl; [left; reflexivity|].
      rewrite andb_true_iff. intros [Hl [Hc He]]. right.
      exists c, t. split_and!; [reflexivity | assumption |].
      apply IH. split; [lia | assumption].
Qed.

Lemma times_cons p n c t :
  p c = true -> lang (Times n (Class p)) t -> lang (Times (S n) (Class p)) (String c t).
Proof.
  intros Hc Ht. apply lang_class_times in Ht as [Hl He].
  apply lang_class_times. simpl. rewrite Hl, Hc, He. auto.
Qed.

Lemma lang_class_atleast p n s :
  lang (AtLeast n (Class p)) s <-> n <= String.length s /\ Js.every p s = true.
Proof.
  unfold AtLeast.
  change (lang (Seq ?a ?b) s)
    with (exists s1 s2, s = s1 +:+ s2 /\ lang a s1 /\ lang b s2).
  split.
  - intros (s1 & s2 & -> & H1 & H2).
    apply lang_class_times in H1 as [Hl H1]. apply lang_class_star in H2.
    rewrite length_app, every_app, H1, H2. split; [lia | reflexivity].
  - revert s. induction n as [|n IH]; intros s [Hl He].
    + exists "", s. split_and!; [reflexivity | reflexivity |].
      apply lang_class_star; assumption.
    + destruct s as [|c t]; simpl in Hl, He; [lia|].
      apply andb_true_iff in He as [Hc He].
      destruct (IH t) as (s1 & s2 & -> & H1 & H2); [split; [lia | assumption]|].
      exists (String c s1), s2.
      split_and!; [reflexivity | apply times_cons; assumption | assumption].
Qed.

Lemma lang_class_plus p s :
  lang (Plus (Class p)) s <-> s <> "" /\ Js.every p s = true.
Proof.
  unfold Plus. rewrite lang_seq_class. split.
  - intros (c & t & -> & Hc & Ht). apply lang_class_star in Ht.
    simpl. rewrite Hc, Ht. split; [discriminate | reflexivity].
  - destruct s as [|c t]; intros [Hne He]; [congruence|].
    simpl in He. apply andb_true_iff in He as [Hc He].
    exists c, t. split_and!; [reflexivity | assumption |].
    apply lang_class_star. assumption.
Qed.

Lemma lang_class_between p n m s :
  n <= m ->
  lang (Between n m (Class p)) s <->
  n <= String.length s <= m /\ Js.every p s = true.
Proof.
  intros Hnm. unfold Between.
  change (lang (Seq ?a ?b) s)
    with (exists s1 s2, s = s1 +:+ s2 /\ lang a s1 /\ lang b s2).
  split.
  - intros (s1 & s2 & -> & H1 & H2).
    apply lang_class_times in H1 as [Hl1 H1].
    apply lang_class_upto in H2 as [Hl2 H2].
    rewrite length_app, every_app, H1, H2. split; [lia | reflexivity].
  - revert s m Hnm. induction n as [|n IH]; intros s m Hnm [Hl He].
    + exists "", s. split_and!; [reflexivity | reflexivity |].
      apply lang_class_upto. split; [lia | assumption].
    + destruct s as [|c t]; simpl in Hl, He; [lia|].
      apply andb_true_iff in He as [Hc He].
      destruct (IH t (m - 1)) as (s1 & s2 & -> & H1 & H2);
        [lia | split; [lia | assumption] |].
      exists (String c s1), s2.
      split_and!; [reflexivity | apply times_cons; assumption |].
      replace (m - S n) with (m - 1 - n) by lia. assumption.
Qed.

(** [/^\d{5}$/] accepts exactly the strings of five decimal digits. *)
Lemma zip_pattern s :
  test ZIP_RE s = true <-> String.length s = 5 /\ Js.every Js.isDigit s = true.
Proof. rewrite test_lang. apply lang_class_times. Qed.

(** [/^\+[1-9]\d{9,14}$/] accepts exactly a [+], a digit from 1 to 9 and
    then 9 to 14 more digits. *)
Lemma e164_pattern s :
  test e164 s = true <->
  exists d rest,
    s = String "+" (String d rest) /\ Js.inRange 49 57 d = true /\
    9 <= String.length rest <= 14 /\ Js.every Js.isDigit rest = true.
Proof.
  rewrite test_lang. unfold e164, char, nonZeroDigit, digit.
  rewrite lang_seq_class. split.
  - intros (c & t & -> & Hc & Ht).
    apply lang_seq_class in Ht as (d & rest & -> & Hd & Hr).
    apply lang_class_between in Hr; [|lia].
    apply Ascii.eqb_eq in Hc as <-. exists d, rest. tauto.
  - intros (d & rest & -> & Hd & Hl & He).
    exists "+"%char, (String d rest).
    split_and!; [reflexivity | apply Ascii.eqb_refl |].
    apply lang_seq_class. exists d, rest.
    split_and!; [reflexivity | assumption |].
    apply lang_class_between; [lia | tauto].
Qed.

(** [/^[^\s@]+@[^\s@]+\.[^\s@]{2,}$/] accepts exactly [local@x.y] where
    [local] and [x] are not empty, [y] has at least two characters, and none
    of the three contains white space or an [@]. *)
Lemma email_pattern s :
  isValidEmail s = true <->
  exists local x y,
    s = local +:+ "@" +:+ x +:+ "." +:+ y /\
    local <> "" /\ x <> "" /\ 2 <= String.length y /\
    Js.every notSpaceAt local = true /\ Js.every notSpaceAt x = true /\
    Js.every notSpaceAt y = true.
Proof.
  unfold isValidEmail. rewrite test_lang. unfold EMAIL_RE, char.
  change (lang (Seq ?a ?b) s)
    with (exists s1 s2, s = s1 +:+ s2 /\ lang a s1 /\ lang b s2).
  split.
  - intros (local & s2 & -> & Hl & H2).
    apply lang_class_plus in Hl as [Hl1 Hl2].
    apply lang_seq_class in H2 as (a & s3 & -> & Ha & H3).
    apply Ascii.eqb_eq in Ha as <-.
    destruct H3 as (x & s4 & -> & Hx & H4).
    apply lang_class_plus in Hx as [Hx1 Hx2].
    apply lang_seq_class in H4 as (d & y & -> & Hd & Hy).
    apply Ascii.eqb_eq in Hd as <-.
    apply lang_class_atleast in Hy as [Hy1 Hy2].
    exists local, x, y. split_and!; try assumption. reflexivity.
  - intros (local & x & y & -> & Hl1 & Hx1 & Hy1 & Hl2 & Hx2 & Hy2).
    exists local, ("@" +:+ x +:+ "." +:+ y).
    split_and!; [reflexivity | apply lang_class_plus; auto |].
    apply lang_seq_class. exists "@"%char, (x +:+ "." +:+ y).
    split_and!; [reflexivity | apply Ascii.eqb_refl |].
    exists x, ("." +:+ y).
    split_and!; [reflexivity | apply lang_class_plus; auto |].
    apply lang_seq_class. exists "."%char, y.
    split_and!; [reflexivity | apply Ascii.eqb_refl |].
    apply lang_class_atleast. auto.
Qed.

End Patterns.

(* ===================================================================== *)
(** * The validator *)
(* ===================================================================== *)

Section Validator.

Lemma validate_firstFailure c :
  validate c =
  match firstFailure specChecks c with
  | Some k => inl k
  | None => inr (rawPhone c)
  end.
Proof.
  unfold validate, specChecks, firstFailure, isValidEmail.
  rewrite <- !truthy_eqb, ?negb_involutive.
  destruct (Js.truthy (publicUserName c)), (Js.truthy (publicUserEmail c)),
    (Js.truthy (projectText c)), (Js.truthy (zip c));
    cbn [negb orb andb]; try reflexivity.
  destruct (RegExp.test EMAIL_RE (publicUserEmail c));
    cbn [negb orb andb]; [|reflexivity].
  destruct (publicUserConcent c); cbn [negb orb andb]; [|reflexivity].
  destruct (RegExp.test ZIP_RE (zip c)); cbn [negb orb andb]; [|reflexivity].
  destruct (Js.truthy (rawPhone c)) eqn:Hp; cbn [negb orb andb].
  - destruct (RegExp.test e164 (rawPhone c)); cbn [negb orb andb]; [|reflexivity].
    destruct (Js.truthy (rawBudget c) && _); reflexivity.
  - apply truthy_false in Hp. rewrite Hp.
    destruct (Js.truthy (rawBudget c) && _); reflexivity.
Qed.

Lemma heading_inj k1 k2 : heading k1 = heading k2 -> k1 = k2.
Proof. destruct k1, k2; simpl; intros H; try reflexivity; discriminate. Qed.

(** C2.  The handler's checks are the six checks of the specification in
    the order MissingRequired, InvalidEmail, ConsentRequired, InvalidZip,
    InvalidPhone, InvalidBudget: the response is that of the first check
    that fails, every kind has its own page, and a submission with an empty
    name and no consent is answered MissingRequired. *)
Theorem C2_checks_in_order :
  (forall c,
     validate c =
     match firstFailure specChecks c with
     | Some k => inl k
     | None => inr (rawPhone c)
     end) /\
  map fst specChecks =
    [MissingRequired; InvalidEmail; ConsentRequired; InvalidZip;
     InvalidPhone; InvalidBudget] /\
  NoDup (map heading (map fst specChecks)) /\
  (forall email phone project zip ready urgent raw digits number,
     validate {| publicUserName := ""; publicUserEmail := email;
                 rawPhone := phone; projectText := project; zip := zip;
                 readyToHire := ready; urgent := urgent; rawBudget := raw;
                 budgetDigits := digits; budgetNumber := number;
                 publicUserConcent := false |} = inl MissingRequired).
Proof.
  split_and!.
  - apply validate_firstFailure.
  - reflexivity.
  - apply (bool_decide_unpack _). vm_compute. reflexivity.
  - reflexivity.
Qed.

End Validator.

(* ===================================================================== *)
(** * The normalizer *)
(* ===================================================================== *)

Section Normalizer.

Implicit Types (s t : string) (c : ascii).

Lemma trimStart_spec s :
  exists l, s = l +:+ Js.trimStart s /\ Js.every Js.isWhiteSpace l = true /\
            Js.startsWithSpace (Js.trimStart s) = false.
Proof.
  induction s as [|c s (l & Hl & Hw & Hs)]; simpl.
  - exists "". auto.
  - destruct (Js.isWhiteSpace c) eqn:Hc.
    + exists (String c l). rewrite app_cons, <- Hl. simpl. rewrite Hc, Hw. auto.
    + exists "". simpl. auto.
Qed.

Lemma trimEnd_spec s :
  exists r, s = Js.trimEnd s +:+ r /\ Js.every Js.isWhiteSpace r = true /\
            Js.endsWithSpace (Js.trimEnd s) = false.
Proof.
  induction s as [|c s (r & Hr & Hw & He)]; simpl.
  - exists "". auto.
  - destruct (Js.trimEnd s) as [|a t] eqn:Ht.
    + rewrite app_nil_l in Hr. subst r.
      destruct (Js.isWhiteSpace c) eqn:Hc.
      * exists (String c s). simpl. rewrite Hc, Hw. auto.
      * exists s. simpl. rewrite Hc. auto.
    + exists r. rewrite app_cons, <- Hr. auto.
Qed.

Lemma trimEnd_start s :
  Js.startsWithSpace s = false -> Js.startsWithSpace (Js.trimEnd s) = false.
Proof.
  destruct s as [|c s]; simpl; [reflexivity|]. intros Hc.
  destruct (Js.trimEnd s); [rewrite Hc|]; simpl; auto.
Qed.

(** [trim] removes white space at both ends, and nothing else. *)
Lemma trim_spec s :
  exists l r, s = l +:+ Js.trim s +:+ r /\
    Js.every Js.isWhiteSpace l = true /\ Js.every Js.isWhiteSpace r = true /\
    Js.startsWithSpace (Js.trim s) = false /\ Js.endsWithSpace (Js.trim s) = false.
Proof.
  unfold Js.trim.
  destruct (trimStart_spec s) as (l & Hl & Hlw & Hs).
  destruct (trimEnd_spec (Js.trimStart s)) as (r & Hr & Hrw & He).
  exists l, r. rewrite <- Hr, <- Hl. split_and!; auto using trimEnd_start.
Qed.

Lemma lowerChar_not_upper c : Js.isUpper (Js.lowerChar c) = false.
Proof. destruct c as [[] [] [] [] [] [] [] []]; reflexivity. Qed.

Lemma toLowerCase_no_upper s :
  Js.every (fun c => negb (Js.isUpper c)) (Js.toLowerCase s) = true.
Proof.
  induction s as [|c s IH]; simpl; [reflexivity|].
  rewrite lowerChar_not_upper, IH. reflexivity.
Qed.

Lemma toLowerCase_length s : String.length (Js.toLowerCase s) = String.length s.
Proof. induction s as [|c s IH]; simpl; congruence. Qed.

Lemma toLowerCase_fixed s :
  Js.every (fun c => negb (Js.isUpper c)) s = true -> Js.toLowerCase s = s.
Proof.
  induction s as [|c s IH]; simpl; [reflexivity|].
  rewrite andb_true_iff, negb_true_iff. intros [Hc Hs].
  unfold Js.lowerChar. rewrite Hc, IH; auto.
Qed.

Lemma isYes_spec x : isYes x = true <-> x = Some (FStr "yes").
Proof.
  destruct x as [[s| |]|]; simpl; try (split; [discriminate | congruence]).
  rewrite String.eqb_eq. split; congruence.
Qed.


(** The six conversions succeed together or the normalizer throws. *)
Lemma normalize_Some (body : gmap string formValue) (c : Candidate) :
  normalize body = Some c <->
  exists name email phone project zip' budgetText,
    stringOrEmpty (body !! "name") = Some name /\
    stringOrEmpty (body !! "email") = Some email /\
    stringOrEmpty (body !! "phone") = Some phone /\
    stringOrEmpty (body !! "project") = Some project /\
    stringOrEmpty (body !! "zip") = Some zip' /\
    stringOrEmpty (body !! "budgetText") = Some budgetText /\
    c = {| publicUserName := Js.trim name;
           publicUserEmail := Js.toLowerCase (Js.trim email);
           rawPhone := Js.trim phone;
           projectText := Js.trim project;
           zip := Js.trim zip';
           readyToHire := isYes (body !! "readyToHire");
           urgent := isYes (body !! "urgent");
           rawBudget := Js.trim budgetText;
           budgetDigits := digitsOf (Js.trim budgetText);
           budgetNumber := numberOf (digitsOf (Js.trim budgetText));
           publicUserConcent := isYes (body !! "concent") |}.
Proof.
  unfold normalize.
  destruct (stringOrEmpty (body !! "name")) as [name|];
    destruct (stringOrEmpty (body !! "email")) as [email|];
    destruct (stringOrEmpty (body !! "phone")) as [phone|];
    destruct (stringOrEmpty (body !! "project")) as [project|];
    destruct (stringOrEmpty (body !! "zip")) as [zip'|];
    destruct (stringOrEmpty (body !! "budgetText")) as [budgetText|];
    simpl; split;
    try discriminate;
    try (intros (? & ? & ? & ? & ? & ? & ? & ? & ? & ? & ? & ? & ?); discriminate).
  - intros [= <-]. exists name, email, phone, project, zip', budgetText.
    split_and!; reflexivity.
  - intros (? & ? & ? & ? & ? & ? & [= <-] & [= <-] & [= <-] & [= <-] & [= <-]
            & [= <-] & ->). reflexivity.
Qed.

Lemma normalize_None (body : gmap string formValue) :
  normalize body = None <->
  Exists (fun k => stringOrEmpty (body !! k) = None) textFields.
Proof.
  unfold textFields. rewrite !Exists_cons, Exists_nil. unfold normalize.
  destruct (stringOrEmpty (body !! "name")) as [name|];
    destruct (stringOrEmpty (body !! "email")) as [email|];
    destruct (stringOrEmpty (body !! "phone")) as [phone|];
    destruct (stringOrEmpty (body !! "project")) as [project|];
    destruct (stringOrEmpty (body !! "zip")) as [zip'|];
    destruct (stringOrEmpty (body !! "budgetText")) as [budgetText|];
    simpl; split; auto; try discriminate; intuition discriminate.
Qed.






End Normalizer.

(* ===================================================================== *)
(** * Phone and budget *)
(* ===================================================================== *)

Section PhoneBudget.

(** The response is the one of check number [n + 1] exactly when the first
    [n] checks pass and that check fails. *)
Lemma validate_nth n k f c :
  nth_error specChecks n = Some (k, f) ->
  validate c = inl k <->
  firstFailure (firstn n specChecks) c = None /\ f c = true.
Proof.
  intros Hn. rewrite validate_firstFailure.
  do 6 (destruct n as [|n];
        [ injection Hn as <- <-; unfold specChecks; cbn [firstn firstFailure];
          repeat match goal with
                 | |- context [if ?b then _ else _] => destruct b
                 end; intuition congruence |]).
  destruct n; discriminate.
Qed.

Lemma validate_accepts c p :
  validate c = inr p <-> firstFailure specChecks c = None /\ p = rawPhone c.
Proof.
  rewrite validate_firstFailure.
  destruct (firstFailure specChecks c); split;
    [discriminate | intros [? _]; discriminate | intros [= <-]; auto
    | intros [_ ->]; reflexivity].
Qed.

Lemma firstFailure_phone_ok c :
  firstFailure specChecks c = None ->
  rawPhone c = "" \/ RegExp.test e164 (rawPhone c) = true.
Proof.
  unfold specChecks. cbn [firstFailure].
  destruct (String.eqb_spec (rawPhone c) ""); [auto|].
  destruct (RegExp.test e164 (rawPhone c)); [auto|]. cbn [negb andb].
  repeat match goal with
         | |- context [if ?b then _ else _] => destruct b
         end; discriminate.
Qed.

(** C9.  The response is InvalidPhone exactly when the four earlier checks
    pass and the trimmed phone is neither empty nor of the form [+], a
    digit from 1 to 9, 9 to 14 more digits.  An accepted submission carries
    the trimmed phone, which is empty when the field is empty or absent.
    "+18885551234" matches and "8885551234" does not. *)
Theorem C9_phone_optional_e164 :
  (forall c,
     validate c = inl InvalidPhone <->
     firstFailure (firstn 4 specChecks) c = None /\
     rawPhone c <> "" /\ RegExp.test e164 (rawPhone c) = false) /\
  (forall c p,
     validate c = inr p ->
     p = rawPhone c /\ (p = "" \/ RegExp.test e164 p = true)) /\
  (forall s,
     RegExp.test e164 s = true <->
     exists d rest,
       s = String "+" (String d rest) /\ Js.inRange 49 57 d = true /\
       9 <= String.length rest <= 14 /\ Js.every Js.isDigit rest = true) /\
  (forall (body : gmap string formValue) (c : Candidate),
     normalize body = Some c ->
     body !! "phone" = None \/ body !! "phone" = Some (FStr "") ->
     rawPhone c = "") /\
  RegExp.test e164 "+18885551234" = true /\
  RegExp.test e164 "8885551234" = false.
Proof.
  split_and!.
  - intros c.
    rewrite (validate_nth 4 InvalidPhone _ c eq_refl). cbn beta.
    rewrite andb_true_iff, !negb_true_iff.
    destruct (String.eqb_spec (rawPhone c) ""); intuition congruence.
  - intros c p [Hf ->]%validate_accepts. split; [reflexivity|].
    apply firstFailure_phone_ok. assumption.
  - apply e164_pattern.
  - intros body c (name & email & phone & project & zip' & budgetText & _ & _ & Hp
                   & _ & _ & _ & ->)%normalize_Some H.
    cbn [rawPhone]. destruct H as [H|H]; rewrite H in Hp; injection Hp as <-;
      reflexivity.
  - reflexivity.
  - reflexivity.
Qed.

Lemma C9_phone_witness :
  (exists c, normalize sampleBody = Some c /\
             validate c = inr "+18885551234" /\
             "+18885551234" = rawPhone c /\
             ("+18885551234" = "" \/ RegExp.test e164 "+18885551234" = true)) /\
  (exists c, normalize (delete "phone" sampleBody) = Some c /\ rawPhone c = "").
Proof.
  destruct C9_phone_optional_e164 as (_ & Hacc & _ & Habs & _).
  split.
  - destruct (normalize sampleBody) as [c|] eqn:Hn;
      [|vm_compute in Hn; discriminate Hn].
    assert (Hv : validate c = inr "+18885551234")
      by (vm_compute in Hn; injection Hn as <-; vm_compute; reflexivity).
    exists c. destruct (Hacc c _ Hv). auto.
  - destruct (normalize (delete "phone" sampleBody)) as [c|] eqn:Hn;
      [|vm_compute in Hn; discriminate Hn].
    exists c. split; [reflexivity|]. apply (Habs _ c Hn). left. reflexivity.
Defined.

Lemma removeNonDigits_every s : Js.every Js.isDigit (Js.removeNonDigits s) = true.
Proof.
  induction s as [|c s IH]; simpl; [reflexivity|].
  destruct (Js.isDigit c) eqn:Hc; simpl; [rewrite Hc|]; assumption.
Qed.

Lemma takeDigits_every d : Js.every Js.isDigit d = true -> Js.takeDigits d = d.
Proof.
  induction d as [|c d IH]; simpl; [reflexivity|].
  rewrite andb_true_iff. intros [-> Hd]. rewrite IH; auto.
Qed.

(** On a non-empty string of digits [parseInt] finds neither white space
    nor a sign and reads the whole string. *)
Lemma parseInt10_digits d :
  Js.truthy d = true -> Js.every Js.isDigit d = true ->
  Js.parseInt10 d = Js.ofZ (Z.of_N (Js.decimal d)).
Proof.
  destruct d as [|c d]; [discriminate|]. intros _ Hall.
  pose proof (takeDigits_every _ Hall) as Htake.
  simpl in Hall. apply andb_true_iff in Hall as [Hc _].
  assert (Hparse : Js.parseInt10 (String c d) =
                   if Js.truthy (Js.takeDigits (String c d))
                   then Js.ofZ (Z.of_N (Js.decimal (Js.takeDigits (String c d))))
                   else Js.NaN).
  { destruct c as [[] [] [] [] [] [] [] []];
      try (vm_compute in Hc; discriminate Hc); reflexivity. }
  rewrite Hparse, Htake. reflexivity.
Qed.

(** Shifting a non-negative mantissa to the right keeps it non-negative. *)
Lemma shr_1_nonneg mrs : (0 <= shr_m mrs)%Z -> (0 <= shr_m (shr_1 mrs))%Z.
Proof. destruct mrs as [[|[p|p|]|p] r t]; simpl; lia. Qed.

Lemma iter_shr_1_nonneg p : forall mrs,
  (0 <= shr_m mrs)%Z -> (0 <= shr_m (SpecFloat.iter_pos shr_1 p mrs))%Z.
Proof.
  induction p as [p IH|p IH|]; intros mrs H; simpl;
    auto using shr_1_nonneg.
Qed.

Lemma shr_fexp_nonneg prec emax m e l :
  (0 <= m)%Z -> (0 <= shr_m (fst (shr_fexp prec emax m e l)))%Z.
Proof.
  intros H. unfold shr_fexp, shr.
  assert (H0 : (0 <= shr_m (shr_record_of_loc m l))%Z)
    by (destruct l as [|[]]; exact H).
  destruct (_ - e)%Z; simpl; auto using iter_shr_1_nonneg.
Qed.

Lemma round_nearest_even_nonneg m l :
  (0 <= m)%Z -> (0 <= round_nearest_even m l)%Z.
Proof.
  intros H. destruct l as [|[]]; simpl; try lia. destruct (Z.even m); lia.
Qed.

(** Rounding a non-negative mantissa gives a number with the sign asked
    for: a zero, a finite number or an infinity, never NaN. *)
Lemma binary_round_aux_sign prec emax sx mx ex lx :
  (0 <= mx)%Z ->
  match binary_round_aux prec emax sx mx ex lx with
  | S754_zero s | S754_infinity s | S754_finite s _ _ => s = sx
  | S754_nan => False
  end.
Proof.
  intros H. unfold binary_round_aux.
  pose proof (shr_fexp_nonneg prec emax mx ex lx H) as H1.
  destruct (shr_fexp prec emax mx ex lx) as [mrs' e']. simpl in H1.
  pose proof (round_nearest_even_nonneg _ (loc_of_shr_record mrs') H1) as H2.
  pose proof (shr_fexp_nonneg prec emax _ e' loc_Exact H2) as H3.
  destruct (shr_fexp prec emax _ e' loc_Exact) as [mrs'' e'']. simpl in H3.
  destruct (shr_m mrs'') as [|m|m]; [reflexivity | | lia].
  destruct (e'' <=? emax - prec)%Z; reflexivity.
Qed.

Lemma round_nonneg_sign (z : Z) :
  (0 <= z)%Z ->
  match Js.round z false with
  | S754_zero s | S754_infinity s | S754_finite s _ _ => s = false
  | S754_nan => False
  end.
Proof.
  intros Hz. unfold Js.round, binary_normalize.
  destruct z as [|m|m]; [reflexivity | | lia].
  unfold binary_round. destruct (shl_align _ _ _) as [mz ez].
  apply binary_round_aux_sign. lia.
Qed.

Lemma ofN_not_nan n : Js.isNaN (Js.ofZ (Z.of_N n)) = false.
Proof.
  pose proof (round_nonneg_sign (Z.of_N n) ltac:(lia)) as H.
  unfold Js.ofZ. destruct (Js.round _ _); [reflexivity.. | contradiction | reflexivity].
Qed.

Lemma ofN_not_negative n : Js.ltZero (Js.ofZ (Z.of_N n)) = false.
Proof.
  pose proof (round_nonneg_sign (Z.of_N n) ltac:(lia)) as H.
  unfold Js.ofZ, Js.ltZero. destruct (Js.round _ _); subst; reflexivity || contradiction.
Qed.

Lemma digits2_iter m k :
  Zpos (digits2_pos (Pos.iter xO m k)) = (Zpos (digits2_pos m) + Zpos k)%Z.
Proof.
  induction k as [|k IH] using Pos.peano_ind.
  - simpl. lia.
  - rewrite Pos.iter_succ. simpl. lia.
Qed.

Lemma Zpos_iter m k : Zpos (Pos.iter xO m k) = (Zpos m * 2 ^ Zpos k)%Z.
Proof.
  induction k as [|k IH] using Pos.peano_ind.
  - simpl. lia.
  - rewrite Pos.iter_succ, Pos2Z.inj_succ, Z.pow_succ_r by lia.
    rewrite Pos2Z.inj_xO, IH. lia.
Qed.

Lemma digits2_le m n : (Zpos m < 2 ^ n)%Z -> (0 <= n)%Z -> (Zpos (digits2_pos m) <= n)%Z.
Proof.
  revert n. induction m as [m IH|m IH|]; intros n Hm Hn; simpl digits2_pos.
  - destruct (Z.eq_dec n 0%Z) as [->|]; [simpl in Hm; lia|].
    rewrite Pos2Z.inj_succ. specialize (IH (n - 1)%Z).
    replace n with (Z.succ (n - 1)) in Hm by lia.
    rewrite Z.pow_succ_r in Hm by lia. lia.
  - destruct (Z.eq_dec n 0%Z) as [->|]; [simpl in Hm; lia|].
    rewrite Pos2Z.inj_succ. specialize (IH (n - 1)%Z).
    replace n with (Z.succ (n - 1)) in Hm by lia.
    rewrite Z.pow_succ_r in Hm by lia. lia.
  - destruct (Z.eq_dec n 0%Z) as [->|]; [simpl in Hm; lia | lia].
Qed.

(** A mantissa of exactly 53 bits with an exponent from -52 to 0 is left
    as it is. *)
Lemma binary_round_aux_exact (m : positive) (e : Z) :
  Zpos (digits2_pos m) = 53%Z -> (-52 <= e <= 0)%Z ->
  binary_round_aux 53 1024 false (Zpos m) e loc_Exact = S754_finite false m e.
Proof.
  intros Hd He. unfold binary_round_aux.
  assert (Hs : forall l, l = loc_Exact ->
                 shr_fexp 53 1024 (Zpos m) e l =
                 ({| shr_m := Zpos m; shr_r := false; shr_s := false |}, e)).
  { intros l ->. unfold shr_fexp, shr, fexp, emin. simpl Zdigits2. rewrite Hd.
    replace (Z.max (53 + e - 53) (3 - 1024 - 53) - e)%Z with 0%Z by lia.
    reflexivity. }
  rewrite (Hs _ eq_refl). cbn [shr_m loc_of_shr_record round_nearest_even].
  rewrite (Hs _ eq_refl). cbn [shr_m].
  destruct (Z.leb_spec e (1024 - 53)); [reflexivity | lia].
Qed.

(** An integer from 0 up to [2^53] is a Number. *)
Lemma ofZ_exact (z : Z) :
  (0 <= z < 2 ^ 53)%Z -> Js.integerValue (Js.ofZ z) = Some z.
Proof.
  intros Hz. unfold Js.ofZ, Js.round, binary_normalize.
  destruct z as [|m|m]; [reflexivity | | lia].
  unfold binary_round.
  assert (Hd : (1 <= Zpos (digits2_pos m) <= 53)%Z)
    by (split; [lia | apply digits2_le; lia]).
  unfold fexp, emin.
  replace (Z.max (Zpos (digits2_pos m) + 0 - 53) (3 - 1024 - 53))%Z
    with (Zpos (digits2_pos m) - 53)%Z by lia.
  unfold shl_align.
  destruct (Zpos (digits2_pos m) - 53 - 0)%Z as [|k|k] eqn:Hk; try lia.
  - rewrite binary_round_aux_exact by lia. simpl. f_equal. lia.
  - rewrite binary_round_aux_exact by (rewrite ?digits2_iter; lia).
    unfold Js.integerValue.
    destruct (Z.leb_spec 0 (Zpos (digits2_pos m) - 53)); [lia|].
    replace (- (Zpos (digits2_pos m) - 53))%Z with (Zpos k) by lia.
    rewrite Zpos_iter, Z.mod_mul, Z.eqb_refl, Z.div_mul by lia. reflexivity.
Qed.

(** What the handler computes from the budget field. *)
Lemma normalize_budget (body : gmap string formValue) (c : Candidate) :
  normalize body = Some c ->
  budgetDigits c = Js.removeNonDigits (rawBudget c) /\
  Js.every Js.isDigit (budgetDigits c) = true /\
  budgetNumber c =
    if Js.truthy (budgetDigits c)
    then Some (Js.ofZ (Z.of_N (Js.decimal (budgetDigits c))))
    else None.
Proof.
  intros (name & email & phone & project & zip' & budgetText & _ & _ & _ & _ & _
          & _ & ->)%normalize_Some.
  cbn [budgetDigits rawBudget budgetNumber].
  set (raw := Js.trim _).
  assert (Hd : digitsOf raw = Js.removeNonDigits raw).
  { unfold digitsOf. destruct raw; reflexivity. }
  rewrite Hd. split_and!; [reflexivity | apply removeNonDigits_every |].
  unfold numberOf. destruct (Js.truthy (Js.removeNonDigits raw)) eqn:Ht; [|reflexivity].
  rewrite parseInt10_digits; auto using removeNonDigits_every.
Qed.

(** C7, as the code has it.  The budget digits are the digit characters of
    the trimmed raw text.  Without digits the budget is absent; otherwise
    it is the Number [parseInt] makes of them: the double nearest to the
    integer they denote, never NaN and never negative, and that integer
    itself as long as it is below [2^53].  The response is InvalidBudget
    exactly when the five earlier checks pass and a non-empty raw text
    contains no digit.  "2,500" gives 2500, the empty text gives an absent
    budget, which differs from the budget 0 that "0" gives, and "abc" is
    answered InvalidBudget. *)
Theorem C7_budget_digits :
  (forall (body : gmap string formValue) (c : Candidate),
     normalize body = Some c ->
     budgetDigits c = Js.removeNonDigits (rawBudget c) /\
     Js.every Js.isDigit (budgetDigits c) = true /\
     budgetNumber c =
       (if Js.truthy (budgetDigits c)
        then Some (Js.ofZ (Z.of_N (Js.decimal (budgetDigits c))))
        else None) /\
     (forall n, budgetNumber c = Some n ->
                Js.isNaN n = false /\ Js.ltZero n = false) /\
     (budgetDigits c <> "" ->
      (Z.of_N (Js.decimal (budgetDigits c)) < 2 ^ 53)%Z ->
      budgetNumber c ≫= Js.integerValue =
      Some (Z.of_N (Js.decimal (budgetDigits c)))) /\
     (validate c = inl InvalidBudget <->
      firstFailure (firstn 5 specChecks) c = None /\
      rawBudget c <> "" /\ budgetDigits c = "")) /\
  (budgetNumber <$> normalize (<["budgetText" := FStr "2,500"]> sampleBody)
     = Some (Some (Js.ofZ 2500)) /\
   Js.integerValue (Js.ofZ 2500) = Some 2500%Z) /\
  budgetNumber <$> normalize (<["budgetText" := FStr ""]> sampleBody)
    = Some None /\
  validate <$> normalize (<["budgetText" := FStr ""]> sampleBody)
    = Some (inr "+18885551234") /\
  budgetNumber <$> normalize (<["budgetText" := FStr "0"]> sampleBody)
    = Some (Some (Js.ofZ 0)) /\
  validate <$> normalize (<["budgetText" := FStr "abc"]> sampleBody)
    = Some (inl InvalidBudget).
Proof.
  split_and!; [|vm_compute; reflexivity ..].
  intros body c Hc. destruct (normalize_budget body c Hc) as (Hd & He & Hn).
  split_and!; try assumption.
  - intros n. rewrite Hn. destruct (Js.truthy (budgetDigits c)); [|discriminate].
    intros [= <-]. split; [apply ofN_not_nan | apply ofN_not_negative].
  - intros Hne%truthy_true Hlt. rewrite Hn, Hne. simpl. apply ofZ_exact. lia.
  - rewrite (validate_nth 5 InvalidBudget _ c eq_refl). cbn beta.
    rewrite Hn. rewrite andb_true_iff, negb_true_iff, !orb_true_iff.
    rewrite !String.eqb_eq, String.eqb_neq.
    destruct (Js.truthy (budgetDigits c)) eqn:Ht.
    + apply truthy_true in Ht. cbn [isNaN' ltZero'].
      rewrite ofN_not_negative, ofN_not_nan.
      intuition congruence.
    + apply truthy_false in Ht. cbn [isNaN' ltZero']. intuition congruence.
Qed.

Lemma C7_budget_witness :
  exists c,
    normalize (<["budgetText" := FStr " $1,250 "]> sampleBody) = Some c /\
    budgetDigits c = "1250" /\
    budgetNumber c ≫= Js.integerValue = Some 1250%Z.
Proof.
  destruct (normalize (<["budgetText" := FStr " $1,250 "]> sampleBody))
    as [c|] eqn:Hn; [|vm_compute in Hn; discriminate Hn].
  destruct C7_budget_digits as (H & _).
  destruct (H _ c Hn) as (Hd & _ & _ & _ & Hexact & _).
  assert (Hdigits : budgetDigits c = "1250")
    by (vm_compute in Hn; injection Hn as <-; reflexivity).
  exists c. split; [reflexivity|]. split; [exact Hdigits|].
  rewrite Hexact; rewrite Hdigits; [reflexivity | discriminate | reflexivity].
Defined.

(** C7, as the specification words it, fails: a budget of 310 digits is
    accepted and parsed to +Infinity, which is no integer; and the sixteen
    digits 9007199254740993 are parsed to 9007199254740992. *)
Lemma C7_huge_budget_is_infinity :
  (exists c,
     normalize (<["budgetText" := FStr hugeBudget]> sampleBody) = Some c /\
     validate c = inr "+18885551234" /\
     budgetNumber c = Some (S754_infinity false) /\
     budgetNumber c ≫= Js.integerValue = None) /\
  Js.integerValue (Js.parseInt10 "9007199254740993")
  = Some 9007199254740992%Z.
Proof.
  split.
  - eexists. split_and!; [vm_compute; reflexivity | vm_compute; reflexivity ..].
  - vm_compute. reflexivity.
Qed.

End PhoneBudget.

(* ===================================================================== *)
(** * Email addresses *)
(* ===================================================================== *)

Section Email.

Implicit Types (s t : string) (c : ascii).

Lemma startsWith_app s t : Js.startsWith s (s +:+ t) = true.
Proof.
  induction s as [|c s IH]; [reflexivity|].
  rewrite app_cons. simpl. rewrite Ascii.eqb_refl, IH. reflexivity.
Qed.

Lemma startsWith_spec s t : Js.startsWith t s = true <-> exists b, s = t +:+ b.
Proof.
  split.
  - revert s. induction t as [|c t IH]; intros s H.
    + exists s. reflexivity.
    + destruct s as [|a s]; [discriminate|]. simpl in H.
      apply andb_true_iff in H as [Hc Ht]. apply Ascii.eqb_eq in Hc as ->.
      destruct (IH _ Ht) as (b & ->). exists b. reflexivity.
  - intros (b & ->). apply startsWith_app.
Qed.

(** [s.includes(t)] holds exactly when [t] occurs somewhere in [s]. *)
Lemma includes_spec s t :
  Js.includes s t = true <-> exists a b, s = a +:+ t +:+ b.
Proof.
  split.
  - induction s as [|c s IH]; simpl.
    + rewrite orb_false_r. intros (b & ->)%startsWith_spec. exists "", b. reflexivity.
    + rewrite orb_true_iff. intros [(b & ->)%startsWith_spec | H].
      * exists "", b. reflexivity.
      * destruct (IH H) as (a & b & ->). exists (String c a), b. reflexivity.
  - intros (a & b & ->). induction a as [|c a IH].
    + rewrite app_nil_l. pose proof (startsWith_app t b) as Hp.
      destruct (t +:+ b); simpl; rewrite Hp; reflexivity.
    + rewrite app_cons. simpl. rewrite IH. apply orb_true_r.
Qed.

Lemma afterFirst_skip c l r :
  Js.every (fun a => negb (Ascii.eqb a c)) l = true ->
  afterFirst c (l +:+ String c r) = Some r.
Proof.
  induction l as [|a l IH]; simpl.
  - intros _. rewrite ?app_nil_l. simpl. rewrite Ascii.eqb_refl. reflexivity.
  - rewrite andb_true_iff, negb_true_iff. intros [Ha Hl].
    rewrite ?app_cons. simpl. rewrite Ha. auto.
Qed.

Lemma afterFirst_found c x y :
  exists t, afterFirst c (x +:+ String c y) = Some t /\
            String.length y <= String.length t.
Proof.
  induction x as [|a x (t & Ht & Hl)].
  - exists y. rewrite app_nil_l. simpl. rewrite Ascii.eqb_refl. auto.
  - rewrite app_cons. simpl. destruct (Ascii.eqb a c).
    + exists (x +:+ String c y). split; [reflexivity|].
      rewrite length_app. simpl. lia.
    + exists t. auto.
Qed.

Lemma notSpaceAt_no_at l :
  Js.every RegExp.notSpaceAt l = true ->
  Js.every (fun a => negb (Ascii.eqb a "@")) l = true.
Proof.
  induction l as [|a l IH]; simpl; [reflexivity|].
  rewrite !andb_true_iff. intros [Ha Hl]. split; [|auto].
  unfold RegExp.notSpaceAt in Ha. rewrite negb_orb in Ha.
  apply andb_true_iff in Ha as [_ Ha]. assumption.
Qed.

(** An address the pattern accepts has an [@], a dot in the text after it,
    and two characters or more after the first dot that is not the first
    character of that text. *)
Lemma valid_email_shape e :
  isValidEmail e = true ->
  Js.includes e "@" = true /\
  exists c domain tail,
    afterFirst "@" e = Some (String c domain) /\
    Js.includes (String c domain) "." = true /\
    afterFirst "." domain = Some tail /\ 2 <= String.length tail.
Proof.
  intros (local & x & y & -> & Hl & Hx & Hy & Hel & Hex & Hey)%email_pattern.
  split.
  - apply includes_spec. exists local, (x +:+ "." +:+ y). reflexivity.
  - destruct x as [|c x]; [congruence|].
    destruct (afterFirst_found "." x y) as (tail & Ht & Hlen).
    exists c, (x +:+ "." +:+ y), tail. split_and!.
    + change ("@" +:+ ?r) with (String "@" r).
      apply afterFirst_skip, notSpaceAt_no_at. assumption.
    + apply includes_spec. exists (String c x), y. reflexivity.
    + exact Ht.
    + lia.
Qed.

(** C3, as the code has it.  For a submission with a name, a project, a ZIP
    code and a non-empty email, the response is InvalidEmail exactly when
    the trimmed, lower-cased email fails the pattern.  The pattern accepts
    [local@x.y] with [local] and [x] non-empty, [y] of two characters or
    more, and neither white space nor [@] in any of them.  So an email
    without [@], or without a dot after its [@], or with fewer than two
    characters after the first dot that is not the first character of the
    domain, is answered InvalidEmail. *)
Theorem C3_invalid_email (c : Candidate) :
  publicUserName c <> "" -> publicUserEmail c <> "" ->
  projectText c <> "" -> zip c <> "" ->
  (validate c = inl InvalidEmail <-> isValidEmail (publicUserEmail c) = false) /\
  (isValidEmail (publicUserEmail c) = true <->
   exists local x y,
     publicUserEmail c = local +:+ "@" +:+ x +:+ "." +:+ y /\
     local <> "" /\ x <> "" /\ 2 <= String.length y /\
     Js.every RegExp.notSpaceAt local = true /\
     Js.every RegExp.notSpaceAt x = true /\
     Js.every RegExp.notSpaceAt y = true) /\
  (noAt (publicUserEmail c) \/ noDomainDot (publicUserEmail c) \/
   shortAfterDomainDot (publicUserEmail c) ->
   validate c = inl InvalidEmail) /\
  (forall (body : gmap string formValue) (c' : Candidate),
     normalize body = Some c' ->
     Some (publicUserEmail c') =
     (fun s => Js.toLowerCase (Js.trim s)) <$> stringOrEmpty (body !! "email")).
Proof.
  intros Hn He Hp Hz.
  assert (Hiff : validate c = inl InvalidEmail <->
                 isValidEmail (publicUserEmail c) = false).
  { rewrite (validate_nth 1 InvalidEmail _ c eq_refl).
    unfold specChecks. cbn [firstn firstFailure]. cbn beta.
    apply String.eqb_neq in Hn, He, Hp, Hz. rewrite Hn, He, Hp, Hz.
    cbn [orb]. rewrite negb_true_iff. unfold isValidEmail. tauto. }
  split_and!; [exact Hiff | apply email_pattern | |].
  2:{ intros body c' (name & email & phone & project & zip' & budgetText & _ & ->
                      & _ & _ & _ & _ & ->)%normalize_Some. reflexivity. }
  intros Hbad. apply Hiff.
  destruct (isValidEmail (publicUserEmail c)) eqn:Hv; [exfalso | reflexivity].
  apply valid_email_shape in Hv as (Hat & ch & domain & tail & Hd & Hdot & Ht & Hlen).
  destruct Hbad as [Hbad | [Hbad | Hbad]].
  - unfold noAt in Hbad. congruence.
  - specialize (Hbad _ Hd). congruence.
  - specialize (Hbad _ _ _ Hd Ht). lia.
Qed.

Lemma C3_invalid_email_witness :
  validate <$> normalize (<["email" := FStr "ann.lee.example.com"]> sampleBody)
    = Some (inl InvalidEmail) /\
  validate <$> normalize (<["email" := FStr "ann@example.c"]> sampleBody)
    = Some (inl InvalidEmail).
Proof.
  split.
  - destruct (normalize (<["email" := FStr "ann.lee.example.com"]> sampleBody))
      as [c|] eqn:Hn; [|vm_compute in Hn; discriminate Hn].
    vm_compute in Hn. injection Hn as <-. cbn [fmap option_fmap option_map].
    refine (f_equal Some _). apply C3_invalid_email; try (vm_compute; discriminate).
    left. vm_compute. reflexivity.
  - destruct (normalize (<["email" := FStr "ann@example.c"]> sampleBody))
      as [c|] eqn:Hn; [|vm_compute in Hn; discriminate Hn].
    vm_compute in Hn. injection Hn as <-. cbn [fmap option_fmap option_map].
    refine (f_equal Some _). apply C3_invalid_email; try (vm_compute; discriminate).
    right. right. intros ch domain tail Hd Ht.
    vm_compute in Hd. injection Hd as <- <-.
    vm_compute in Ht. injection Ht as <-. simpl. lia.
Defined.

(** C3, as the specification words it, fails: "a@b.cd.e" has a single
    character after its final dot and passes the check, [{2,}] being
    satisfied by "cd.e"; and the empty email, which has no [@], is answered
    MissingRequired. *)
Lemma C3_short_final_part_accepted :
  (exists c : Candidate,
     normalize (<["email" := FStr "a@b.cd.e"]> sampleBody) = Some c /\
     shortAfterFinalDot (publicUserEmail c) /\ validate c = inr "+18885551234") /\
  (exists c0 : Candidate,
     normalize (<["email" := FStr ""]> sampleBody) = Some c0 /\
     noAt (publicUserEmail c0) /\ validate c0 = inl MissingRequired).
Proof.
  split; eexists; (split; [vm_compute; reflexivity|]);
    (split; [|vm_compute; reflexivity]).
  - intros tail Ht. vm_compute in Ht. injection Ht as <-. simpl. lia.
  - vm_compute. reflexivity.
Qed.

End Email.

(* ===================================================================== *)
(** * The redirect resolver *)
(* ===================================================================== *)

Section RedirectResolver.

Lemma isAndroid_spec ual : isAndroid ual = true <-> occursIn "android" ual.
Proof. apply includes_spec. Qed.

Lemma isIOS_spec ual :
  isIOS ual = true <->
  occursIn "iphone" ual \/ occursIn "ipad" ual \/ occursIn "ipod" ual.
Proof.
  unfold isIOS, occursIn. rewrite !orb_true_iff, !includes_spec. tauto.
Qed.

Lemma isInApp_spec ual :
  isInApp ual = true <-> Exists (fun t => occursIn t ual) inAppTokens.
Proof.
  unfold isInApp, inAppTokens, occursIn.
  rewrite !Exists_cons, Exists_nil, !orb_true_iff, !includes_spec. tauto.
Qed.

(** C6.  The target of [/go] depends on the user agent alone, through its
    lower-cased text: with the Android token, the store intent, or the
    Play Store page inside an in-app browser; otherwise, with an iOS
    token, the [itms-apps] link, or the App Store page inside an in-app
    browser; otherwise the fallback.  The tokens are looked for anywhere in
    the text. *)
Theorem C6_redirect_by_user_agent (v : variant) (userAgent : option string) :
  let ual := Js.toLowerCase (orEmpty userAgent) in
  redirectStatus (go v userAgent) = 302%N /\
  (isAndroid ual = true ->
   redirectTo (go v userAgent) = if isInApp ual then AND_HTTPS else AND_INTENT) /\
  (isAndroid ual = false -> isIOS ual = true ->
   redirectTo (go v userAgent) = if isInApp ual then IOS_HTTPS else IOS_ITMS) /\
  (isAndroid ual = false -> isIOS ual = false ->
   redirectTo (go v userAgent) = fallback v) /\
  (isAndroid ual = true <-> occursIn "android" ual) /\
  (isIOS ual = true <->
   occursIn "iphone" ual \/ occursIn "ipad" ual \/ occursIn "ipod" ual) /\
  (isInApp ual = true <-> Exists (fun t => occursIn t ual) inAppTokens).
Proof.
  intros ual. unfold go. fold ual.
  split_and!.
  - destruct (isAndroid ual), (isIOS ual), (isInApp ual); reflexivity.
  - intros ->. destruct (isInApp ual); reflexivity.
  - intros -> ->. destruct (isInApp ual); reflexivity.
  - intros -> ->. reflexivity.
  - apply isAndroid_spec.
  - apply isIOS_spec.
  - apply isInApp_spec.
Qed.

Lemma C6_redirect_witness :
  redirectTo (go ServerJs (Some uaAndroid)) =
    "intent://details?id=com.hoyalist.hoyalist#Intent;scheme=market;package=com.android.vending;S.browser_fallback_url=https%3A%2F%2Fplay.google.com%2Fstore%2Fapps%2Fdetails%3Fid%3Dcom.hoyalist.hoyalist;end;" /\
  redirectTo (go ServerJs (Some uaAndroidFacebook)) =
    "https://play.google.com/store/apps/details?id=com.hoyalist.hoyalist" /\
  redirectTo (go ServerJs (Some uaIPhone)) =
    "itms-apps://itunes.apple.com/app/id6740706168" /\
  redirectTo (go ServerJs (Some uaIPhoneInstagram)) =
    "https://apps.apple.com/us/app/hoyalist/id6740706168" /\
  redirectTo (go ServerJs (Some uaDesktop)) = "/homeowners" /\
  redirectTo (go EarlierServer (Some uaDesktop)) = "https://hoyalistapp.com" /\
  redirectTo (go ServerJs None) = "/homeowners".
Proof.
  split_and!.
  - rewrite (proj1 (proj2 (C6_redirect_by_user_agent ServerJs (Some uaAndroid))));
      vm_compute; reflexivity.
  - rewrite (proj1 (proj2 (C6_redirect_by_user_agent ServerJs (Some uaAndroidFacebook))));
      vm_compute; reflexivity.
  - destruct (C6_redirect_by_user_agent ServerJs (Some uaIPhone)) as (_ & _ & H & _).
    rewrite H; vm_compute; reflexivity.
  - destruct (C6_redirect_by_user_agent ServerJs (Some uaIPhoneInstagram)) as (_ & _ & H & _).
    rewrite H; vm_compute; reflexivity.
  - destruct (C6_redirect_by_user_agent ServerJs (Some uaDesktop)) as (_ & _ & _ & H & _).
    rewrite H; vm_compute; reflexivity.
  - destruct (C6_redirect_by_user_agent EarlierServer (Some uaDesktop)) as (_ & _ & _ & H & _).
    rewrite H; vm_compute; reflexivity.
  - destruct (C6_redirect_by_user_agent ServerJs None) as (_ & _ & _ & H & _).
    rewrite H; vm_compute; reflexivity.
Defined.

End RedirectResolver.

(* ===================================================================== *)
(** * The geocoder client *)
(* ===================================================================== *)

Section Geocoder.

Lemma lookupFailed_spec data :
  lookupFailed data = true <->
  status data <> Some "OK" \/ results data = None \/ results data = Some [].
Proof.
  unfold lookupFailed. rewrite orb_true_iff, negb_true_iff.
  destruct (status data) as [s|]; [destruct (String.eqb_spec s "OK")|];
    destruct (results data) as [[|r rest]|]; subst; intuition congruence.
Qed.

(** The four messages are different whatever the status code and the
    upstream status are. *)
Lemma geocoder_messages_distinct (httpStatus : N) (upstream : option string) :
  let missing := "Missing GOOGLE_GEOCODING_API_KEY" in
  let http := "Google Geocoding HTTP error: " +:+ Js.showN httpStatus in
  let failed := "Google Geocoding failed: " +:+ showStatus upstream in
  let invalid := "Invalid lat/lng from Google" in
  missing <> http /\ missing <> failed /\ missing <> invalid /\
  http <> failed /\ http <> invalid /\ failed <> invalid.
Proof.
  intros missing http failed invalid.
  split_and!; intros H; vm_compute in H; discriminate H.
Qed.

Lemma readGeocodeData_ok data r rest :
  status data = Some "OK" -> results data = Some (r :: rest) ->
  readGeocodeData data =
  match geometry r ≫= location with
  | Some {| lat := JNum la; lng := JNum ln |} =>
      inr {| latitude := la; longitude := ln;
             userTown := (extractTownState r).1;
             userState := (extractTownState r).2 |}
  | _ => inl (Error "Invalid lat/lng from Google")
  end.
Proof.
  intros Hs Hr. unfold readGeocodeData, lookupFailed. rewrite Hs, Hr. simpl.
  destruct (geometry r ≫= location) as [[la ln]|]; [destruct la, ln|];
    try reflexivity.
  destruct (extractTownState r). reflexivity.
Qed.

(** C5.  With the key unset or empty the geocoder throws before fetching
    anything.  With the key set it fetches one URL, and throws an error
    carrying the status code when the response is not a success, an error
    carrying the upstream status when that is not OK or there is no
    result, and an error when the latitude or the longitude of the first
    result is not a number; a result it returns has the coordinates of the
    response.  The four messages are pairwise different. *)
Theorem C5_geocoder_failures (w : World) (zip : string) :
  (orEmpty (GOOGLE_GEOCODING_API_KEY w) = "" ->
   geocodeZipWithGoogle w zip =
   ([], inl (Error "Missing GOOGLE_GEOCODING_API_KEY"))) /\
  (forall key httpStatus json,
     GOOGLE_GEOCODING_API_KEY w = Some key -> key <> "" ->
     fetch w (geocodeUrl zip key) = Responds httpStatus json ->
     let out := geocodeZipWithGoogle w zip in
     out.1 = [geocodeUrl zip key] /\
     (ok httpStatus = false ->
      out.2 = inl (Error ("Google Geocoding HTTP error: " +:+ Js.showN httpStatus))) /\
     (forall data,
        ok httpStatus = true -> json = Some data ->
        (status data <> Some "OK" \/ results data = None \/ results data = Some [] ->
         out.2 = inl (Error ("Google Geocoding failed: " +:+ showStatus (status data)))) /\
        (forall r rest,
           status data = Some "OK" -> results data = Some (r :: rest) ->
           ((forall l, geometry r ≫= location = Some l ->
                       isNumber (lat l) = false \/ isNumber (lng l) = false) ->
            out.2 = inl (Error "Invalid lat/lng from Google")) /\
           (forall geo,
              out.2 = inr geo ->
              geometry r ≫= location =
              Some {| lat := JNum (latitude geo); lng := JNum (longitude geo) |})))) /\
  (forall httpStatus upstream,
     let missing := "Missing GOOGLE_GEOCODING_API_KEY" in
     let http := "Google Geocoding HTTP error: " +:+ Js.showN httpStatus in
     let failed := "Google Geocoding failed: " +:+ showStatus upstream in
     let invalid := "Invalid lat/lng from Google" in
     missing <> http /\ missing <> failed /\ missing <> invalid /\
     http <> failed /\ http <> invalid /\ failed <> invalid).
Proof.
  split_and!.
  - unfold geocodeZipWithGoogle.
    destruct (GOOGLE_GEOCODING_API_KEY w) as [key|]; simpl; [|reflexivity].
    intros ->. reflexivity.
  - intros key httpStatus json Hkey Hne Hfetch out. subst out.
    unfold geocodeZipWithGoogle. rewrite Hkey.
    apply truthy_true in Hne. rewrite Hne. cbn [negb]. rewrite Hfetch.
    split_and!.
    + destruct (ok httpStatus); [destruct json|]; reflexivity.
    + intros ->. reflexivity.
    + intros data -> ->. cbn [negb]. split.
      * intros Hfail%lookupFailed_spec. cbn [snd].
        unfold readGeocodeData. rewrite Hfail. reflexivity.
      * intros r rest Hs Hr. cbn [snd]. rewrite (readGeocodeData_ok _ _ _ Hs Hr).
        split.
        -- intros Hbad. destruct (geometry r ≫= location) as [[la ln]|]; [|reflexivity].
           destruct (Hbad _ eq_refl) as [H|H]; simpl in H;
             destruct la, ln; try reflexivity; discriminate.
        -- intros geo. destruct (geometry r ≫= location) as [[la ln]|];
             [destruct la, ln|]; try discriminate. intros [= <-]. reflexivity.
  - apply geocoder_messages_distinct.
Qed.

Lemma C5_geocoder_witness :
  (geocodeZipWithGoogle
     {| GOOGLE_GEOCODING_API_KEY := None; fetch := fetch sampleWorld;
        autoId := autoId sampleWorld; commitSucceeds := true |} "06119").1 = [] /\
  (geocodeZipWithGoogle
     {| GOOGLE_GEOCODING_API_KEY := Some "test-key";
        fetch := fun _ => Responds 403 None;
        autoId := autoId sampleWorld; commitSucceeds := true |} "06119").2
  = inl (Error "Google Geocoding HTTP error: 403") /\
  (geocodeZipWithGoogle
     {| GOOGLE_GEOCODING_API_KEY := Some "test-key";
        fetch := fun _ => Responds 200 (Some {| status := Some "ZERO_RESULTS";
                                                  results := Some [] |});
        autoId := autoId sampleWorld; commitSucceeds := true |} "06119").2
  = inl (Error "Google Geocoding failed: ZERO_RESULTS").
Proof.
  split_and!.
  - rewrite (proj1 (C5_geocoder_failures _ "06119")); reflexivity.
  - match goal with
    | |- (geocodeZipWithGoogle ?w ?z).2 = _ =>
        destruct (C5_geocoder_failures w z) as (_ & H & _);
        destruct (H "test-key" 403%N None eq_refl ltac:(discriminate) eq_refl)
          as (_ & Hhttp & _)
    end.
    rewrite Hhttp; reflexivity.
  - match goal with
    | |- (geocodeZipWithGoogle ?w ?z).2 = _ =>
        destruct (C5_geocoder_failures w z) as (_ & H & _);
        destruct (H "test-key" 200%N _ eq_refl ltac:(discriminate) eq_refl)
          as (_ & _ & Hdata)
    end.
    destruct (Hdata _ eq_refl eq_refl) as (Hfail & _).
    rewrite Hfail; [reflexivity | left; discriminate].
Defined.

Lemma scanTownState_spec components : forall town0 state0,
  fold_left
    (fun '(userTown, userState) c =>
       (if typed "locality" c then long_name c else userTown,
        if typed "administrative_area_level_1" c then short_name c else userState))
    components (town0, state0) =
  (match lastTyped "locality" components with
   | Some c => long_name c
   | None => town0
   end,
   match lastTyped "administrative_area_level_1" components with
   | Some c => short_name c
   | None => state0
   end).
Proof.
  induction components as [|c rest IH]; intros town0 state0; [reflexivity|].
  cbn [fold_left lastTyped]. rewrite IH.
  destruct (lastTyped "locality" rest), (typed "locality" c),
    (lastTyped "administrative_area_level_1" rest),
    (typed "administrative_area_level_1" c); reflexivity.
Qed.

Lemma scanPostalTown_spec components : forall town0,
  scanPostalTown components town0 =
  match lastTyped "postal_town" components with
  | Some c => long_name c
  | None => town0
  end.
Proof.
  unfold scanPostalTown.
  induction components as [|c rest IH]; intros town0; [reflexivity|].
  cbn [fold_left lastTyped]. rewrite IH.
  destruct (lastTyped "postal_town" rest), (typed "postal_town" c); reflexivity.
Qed.

(** C8, as the code has it.  The state is the short name of the last
    component typed administrative_area_level_1.  The town is the name of
    the last component typed locality, unless there is none or its name is
    empty or missing: then it is the name of the last component typed
    postal_town, if there is one.  With neither kind of component the town
    is the empty string.  None of this makes the lookup fail. *)
Theorem C8_town_and_state (r : GeocodeResult) :
  let components := default [] (address_components r) in
  extractTownState r =
  (match lastTyped "locality" components, lastTyped "postal_town" components with
   | Some c, Some p => if falsy (long_name c) then long_name p else long_name c
   | Some c, None => long_name c
   | None, Some p => long_name p
   | None, None => Some ""
   end,
   match lastTyped "administrative_area_level_1" components with
   | Some a => short_name a
   | None => Some ""
   end) /\
  (forall data rest la ln,
     status data = Some "OK" -> results data = Some (r :: rest) ->
     geometry r ≫= location = Some {| lat := JNum la; lng := JNum ln |} ->
     readGeocodeData data =
     inr {| latitude := la; longitude := ln;
            userTown := (extractTownState r).1;
            userState := (extractTownState r).2 |}).
Proof.
  intros components. split.
  - unfold extractTownState, scanTownState. fold components.
    rewrite scanTownState_spec, scanPostalTown_spec.
    destruct (lastTyped "locality" components) as [c|],
      (lastTyped "postal_town" components) as [p|]; try reflexivity.
    destruct (falsy (long_name c)); reflexivity.
  - intros data rest la ln Hs Hr Hloc.
    rewrite (readGeocodeData_ok _ _ _ Hs Hr), Hloc. reflexivity.
Qed.

Lemma C8_town_and_state_witness :
  readGeocodeData sampleData =
  inr {| latitude := Js.ofDecimal 417621 4; longitude := Js.ofDecimal (-727420) 4;
         userTown := Some "West Hartford"; userState := Some "CT" |}.
Proof.
  destruct (C8_town_and_state sampleResult) as (Hts & Hok).
  rewrite (Hok sampleData [] _ _ eq_refl eq_refl eq_refl), Hts. reflexivity.
Defined.

(** C8, as the specification words it, fails: the result below has a
    locality component, and its town is the name of the postal town, which
    is the name of no locality component. *)
Lemma C8_empty_locality_uses_postal_town :
  let components := default [] (address_components emptyLocalityResult) in
  Exists (fun c => typed "locality" c = true) components /\
  (extractTownState emptyLocalityResult).1 = Some "Bury" /\
  Forall (fun c => typed "locality" c = true ->
                   long_name c <> (extractTownState emptyLocalityResult).1)
         components.
Proof.
  split_and!.
  - apply Exists_cons_hd. reflexivity.
  - reflexivity.
  - repeat constructor; vm_compute; congruence.
Qed.

End Geocoder.

(* ===================================================================== *)
(** * The lead handler *)
(* ===================================================================== *)

Section LeadHandler.

Context (v : variant) (w : World) (db : Firestore) (c : Candidate).

Let out := handle v w db c.

Lemma handle_rejected k :
  validate c = inl k ->
  out = {| response := BadRequest k; store := db; requests := []; logged := None |}.
Proof. subst out. unfold handle. intros ->. reflexivity. Qed.

Lemma handle_geocode_failed phone err :
  validate c = inr phone ->
  (geocodeZipWithGoogle w (zip c)).2 = inl err ->
  out = {| response := SorryNotSaved; store := db;
           requests := (geocodeZipWithGoogle w (zip c)).1;
           logged := Some err |}.
Proof.
  subst out. unfold handle. intros ->.
  destruct (geocodeZipWithGoogle w _) as [sent geo]. simpl. intros ->. reflexivity.
Qed.

Lemma handle_commit_failed phone geo :
  validate c = inr phone ->
  (geocodeZipWithGoogle w (zip c)).2 = inr geo ->
  commitSucceeds w = false ->
  out = {| response := SorryNotSaved; store := db;
           requests := (geocodeZipWithGoogle w (zip c)).1;
           logged := Some CommitRejected |}.
Proof.
  subst out. unfold handle, commit. intros ->.
  destruct (geocodeZipWithGoogle w _) as [sent g]. simpl. intros -> ->. reflexivity.
Qed.

Lemma handle_saved phone geo :
  validate c = inr phone ->
  (geocodeZipWithGoogle w (zip c)).2 = inr geo ->
  commitSucceeds w = true ->
  out = {| response :=
             Thanks (zip c)
               (match v with ServerJs => None | EarlierServer => Some (autoId w) end);
           store :=
             {| PublicUserInfo :=
                  <[autoId w := publicPayload v (autoId w) phone c]> (PublicUserInfo db);
                UserLocation :=
                  <[autoId w := locationPayload (autoId w) c geo]> (UserLocation db) |};
           requests := (geocodeZipWithGoogle w (zip c)).1;
           logged := None |}.
Proof.
  subst out. unfold handle, commit. intros ->.
  destruct (geocodeZipWithGoogle w _) as [sent g]. simpl. intros -> ->. reflexivity.
Qed.

(** The handler returns exactly when the six conversions do. *)
Lemma lead_Some (body : gmap string formValue) :
  normalize body = Some c -> lead v w db body = Some out.
Proof. unfold lead. intros ->. reflexivity. Qed.

Lemma lead_None (body : gmap string formValue) :
  lead v w db body = None <-> normalize body = None.
Proof. unfold lead. destruct (normalize body); simpl; split; congruence. Qed.

End LeadHandler.

(** Reading an observation off a returned outcome. *)
Lemma observed {A B : Type} (f : A -> B) (x : option A) (a : A) (b : B) :
  x = Some a -> f <$> x = Some b -> f a = b.
Proof. intros -> H. simpl in H. congruence. Qed.

Section Payloads.

Context (v : variant) (c : Candidate).

Lemma publicPayload_uid uid phone :
  publicPayload v uid phone c !! "publicUserUID" = Some (VString uid).
Proof.
  unfold publicPayload. destruct v; [destruct (budgetNumber c)|];
    repeat (rewrite lookup_insert_ne by discriminate);
    apply lookup_insert_eq.
Qed.

Lemma locationPayload_uid uid geo :
  locationPayload uid c geo !! "uid" = Some (VString uid).
Proof. apply lookup_insert_eq. Qed.

Lemma publicPayload_budget uid phone :
  publicPayload v uid phone c !! "budgetText" =
  match v, budgetNumber c with
  | _, Some n => Some (VNumber n)
  | ServerJs, None => None
  | EarlierServer, None => Some VNull
  end.
Proof.
  unfold publicPayload. destruct v, (budgetNumber c); simpl;
    rewrite ?lookup_insert_eq; reflexivity.
Qed.

End Payloads.

(** C1.  For a submission whose fields can be converted and which passes
    validation: when the geocoder returns a result and the store accepts
    the batch, the response is the success page and the store gains one
    PublicUserInfo document and one UserLocation document, both under the
    identifier [doc()] generated and both holding that identifier; when the
    geocoder throws or the store rejects the batch, the store is unchanged
    and the response is the 500 page.  A rejected submission leaves the
    store unchanged as well. *)
Theorem C1_lead_writes_both_or_none
    (v : variant) (w : World) (db : Firestore) (body : gmap string formValue)
    (c : Candidate) :
  normalize body = Some c ->
  let uid := autoId w in
  exists out,
    lead v w db body = Some out /\
    (forall phone geo,
       validate c = inr phone ->
       (geocodeZipWithGoogle w (zip c)).2 = inr geo ->
       commitSucceeds w = true ->
       exists public location,
         statusCode (response out) = 200%N /\
         PublicUserInfo (store out) = <[uid := public]> (PublicUserInfo db) /\
         UserLocation (store out) = <[uid := location]> (UserLocation db) /\
         public !! "publicUserUID" = Some (VString uid) /\
         location !! "uid" = Some (VString uid) /\
         (PublicUserInfo db !! uid = None ->
          size (PublicUserInfo (store out)) = S (size (PublicUserInfo db))) /\
         (UserLocation db !! uid = None ->
          size (UserLocation (store out)) = S (size (UserLocation db)))) /\
    (forall phone,
       validate c = inr phone ->
       (exists err, (geocodeZipWithGoogle w (zip c)).2 = inl err) \/
       commitSucceeds w = false ->
       store out = db /\ response out = SorryNotSaved /\
       statusCode (response out) = 500%N) /\
    (forall k, validate c = inl k -> store out = db /\ response out = BadRequest k).
Proof.
  intros Hn uid. exists (handle v w db c). split; [apply lead_Some, Hn|].
  split_and!.
  - intros phone geo Hv Hg Hc.
    exists (publicPayload v uid phone c), (locationPayload uid c geo).
    rewrite (handle_saved v w db c phone geo Hv Hg Hc). cbn.
    split_and!;
      [ reflexivity | reflexivity | reflexivity
      | apply publicPayload_uid | apply locationPayload_uid
      | intros Hfresh; apply map_size_insert_None; exact Hfresh
      | intros Hfresh; apply map_size_insert_None; exact Hfresh ].
  - intros phone Hv [[err Hg] | Hc].
    + rewrite (handle_geocode_failed v w db c phone err Hv Hg). auto.
    + destruct (geocodeZipWithGoogle w (zip c)).2 as [err|geo] eqn:Hg.
      * rewrite (handle_geocode_failed v w db c phone err Hv Hg). auto.
      * rewrite (handle_commit_failed v w db c phone geo Hv Hg Hc). auto.
  - intros k Hv. rewrite (handle_rejected v w db c k Hv). auto.
Qed.

Lemma C1_lead_witness :
  let geocoderDown :=
    {| GOOGLE_GEOCODING_API_KEY := Some "test-key";
       fetch := fun _ => Responds 503 None;
       autoId := autoId sampleWorld; commitSucceeds := true |} in
  let storeDown :=
    {| GOOGLE_GEOCODING_API_KEY := Some "test-key";
       fetch := fetch sampleWorld;
       autoId := autoId sampleWorld; commitSucceeds := false |} in
  let uid := autoId sampleWorld in
  (exists out public location,
     lead ServerJs sampleWorld emptyStore sampleBody = Some out /\
     statusCode (response out) = 200%N /\
     PublicUserInfo (store out) = <[uid := public]> ∅ /\
     UserLocation (store out) = <[uid := location]> ∅ /\
     public !! "publicUserUID" = Some (VString uid) /\
     location !! "uid" = Some (VString uid) /\
     size (PublicUserInfo (store out)) = 1 /\
     size (UserLocation (store out)) = 1) /\
  store <$> lead ServerJs geocoderDown emptyStore sampleBody = Some emptyStore /\
  store <$> lead ServerJs storeDown emptyStore sampleBody = Some emptyStore.
Proof.
  intros geocoderDown storeDown uid. split_and!.
  - destruct (C1_lead_writes_both_or_none ServerJs sampleWorld emptyStore sampleBody
                _ eq_refl) as (out & Hout & Hsaved & _).
    destruct (Hsaved "+18885551234"
                {| latitude := Js.ofDecimal 417621 4; longitude := Js.ofDecimal (-727420) 4;
                   userTown := Some "West Hartford"; userState := Some "CT" |})
      as (public & location & H1 & H2 & H3 & H4 & H5 & H6 & H7);
      [vm_compute; reflexivity | vm_compute; reflexivity | reflexivity |].
    exists out, public, location.
    split_and!; [exact Hout | exact H1 | exact H2 | exact H3 | exact H4 | exact H5
                | apply H6; reflexivity | apply H7; reflexivity].
  - destruct (C1_lead_writes_both_or_none ServerJs geocoderDown emptyStore sampleBody
                _ eq_refl) as (out & Hout & _ & Hfail & _).
    rewrite Hout. refine (f_equal Some _).
    apply (Hfail "+18885551234"); [vm_compute; reflexivity|].
    left. eexists. vm_compute. reflexivity.
  - destruct (C1_lead_writes_both_or_none ServerJs storeDown emptyStore sampleBody
                _ eq_refl) as (out & Hout & _ & Hfail & _).
    rewrite Hout. refine (f_equal Some _).
    apply (Hfail "+18885551234"); [vm_compute; reflexivity|].
    right. reflexivity.
Defined.

(** C4, as the code has it.  When a submission without a budget is saved,
    the PublicUserInfo document written by server.js has no budgetText
    field, and the one written by the earlier version has the field with
    the value null.  With a budget both hold it as a number. *)
Theorem C4_budget_field_when_absent
    (v : variant) (w : World) (db : Firestore) (body : gmap string formValue)
    (c : Candidate) :
  normalize body = Some c ->
  exists out,
    lead v w db body = Some out /\
    forall zipShown reference,
      response out = Thanks zipShown reference ->
      exists public,
        PublicUserInfo (store out) !! autoId w = Some public /\
        public !! "budgetText" =
        match v, budgetNumber c with
        | _, Some n => Some (VNumber n)
        | ServerJs, None => None
        | EarlierServer, None => Some VNull
        end.
Proof.
  intros Hn. exists (handle v w db c). split; [apply lead_Some, Hn|].
  intros zipShown reference Hresp.
  destruct (validate c) as [k|phone] eqn:Hv.
  { rewrite (handle_rejected v w db c k Hv) in Hresp. discriminate. }
  destruct (geocodeZipWithGoogle w (zip c)).2 as [err|geo] eqn:Hg.
  { rewrite (handle_geocode_failed v w db c phone err Hv Hg) in Hresp.
    discriminate. }
  destruct (commitSucceeds w) eqn:Hc.
  - exists (publicPayload v (autoId w) phone c).
    rewrite (handle_saved v w db c phone geo Hv Hg Hc). cbn.
    split; [apply lookup_insert_eq | apply publicPayload_budget].
  - rewrite (handle_commit_failed v w db c phone geo Hv Hg Hc) in Hresp.
    discriminate.
Qed.

Lemma C4_budget_field_witness :
  exists out public,
    lead ServerJs sampleWorld emptyStore (delete "budgetText" sampleBody) = Some out /\
    PublicUserInfo (store out) !! autoId sampleWorld = Some public /\
    public !! "budgetText" = None.
Proof.
  destruct (normalize (delete "budgetText" sampleBody)) as [c|] eqn:Hn;
    [|vm_compute in Hn; discriminate Hn].
  destruct (C4_budget_field_when_absent ServerJs sampleWorld emptyStore
              (delete "budgetText" sampleBody) c Hn) as (out & Hout & H).
  destruct (H "06119" None) as (public & Hdoc & Hfield).
  { apply (observed response _ _ _ Hout). vm_compute. reflexivity. }
  exists out, public. split_and!; [exact Hout | exact Hdoc |].
  vm_compute in Hn. injection Hn as <-. exact Hfield.
Defined.

(** C4, as the specification words it, fails for the earlier version of the
    server: the document it writes for a submission without a budget has a
    budgetText field, holding null. *)
Lemma C4_earlier_version_stores_null :
  let body := delete "budgetText" sampleBody in
  let saved := lead EarlierServer sampleWorld emptyStore body in
  budgetNumber <$> normalize body = Some None /\
  response <$> saved = Some (Thanks "06119" (Some (autoId sampleWorld))) /\
  (saved ≫= fun out : Outcome => PublicUserInfo (store out) !! autoId sampleWorld)
    ≫= (.!! "budgetText")
  = Some VNull.
Proof. split_and!; vm_compute; reflexivity. Qed.

(* ===================================================================== *)
(** * More on validation *)
(* ===================================================================== *)

Section ValidationMore.

Implicit Types (s t : string) (c : Candidate).

Lemma trimStart_empty s :
  Js.trimStart s = "" <-> Js.every Js.isWhiteSpace s = true.
Proof.
  induction s as [|a s IH]; simpl; [tauto|].
  destruct (Js.isWhiteSpace a); simpl; [exact IH|].
  split; discriminate.
Qed.

Lemma trimEnd_empty s :
  Js.trimEnd s = "" <-> Js.every Js.isWhiteSpace s = true.
Proof.
  induction s as [|a s IH]; simpl; [tauto|].
  destruct (Js.trimEnd s) as [|b t].
  - destruct (Js.isWhiteSpace a); simpl; [|split; discriminate].
    split; intros _; [apply IH|]; reflexivity.
  - split; [discriminate|]. rewrite andb_true_iff. intros [_ H].
    apply IH in H. discriminate.
Qed.

(** [trim] gives the empty string exactly for a string of white space. *)
Lemma trim_empty s : Js.trim s = "" <-> Js.every Js.isWhiteSpace s = true.
Proof.
  unfold Js.trim. rewrite trimEnd_empty. split.
  - intros H. destruct (trimStart_spec s) as (l & Hl & Hw & _).
    rewrite Hl, every_app, Hw, H. reflexivity.
  - intros H. apply trimStart_empty in H. rewrite H. reflexivity.
Qed.

Lemma toLowerCase_empty s : Js.toLowerCase s = "" <-> s = "".
Proof. destruct s; simpl; split; congruence. Qed.

(** What passing all six checks means. *)
Lemma firstFailure_none c :
  firstFailure specChecks c = None <->
  (publicUserName c <> "" /\ publicUserEmail c <> "" /\
   projectText c <> "" /\ zip c <> "") /\
  isValidEmail (publicUserEmail c) = true /\
  publicUserConcent c = true /\
  RegExp.test ZIP_RE (zip c) = true /\
  (rawPhone c = "" \/ RegExp.test e164 (rawPhone c) = true) /\
  (rawBudget c = "" \/
   budgetDigits c <> "" /\ isNaN' (budgetNumber c) = false /\
   ltZero' (budgetNumber c) = false).
Proof.
  unfold specChecks, isValidEmail. cbn [firstFailure].
  destruct (String.eqb_spec (publicUserName c) "");
    destruct (String.eqb_spec (publicUserEmail c) "");
    destruct (String.eqb_spec (projectText c) "");
    destruct (String.eqb_spec (zip c) ""); cbn [orb];
    try (split; [discriminate | tauto]).
  destruct (RegExp.test EMAIL_RE (publicUserEmail c)); cbn [negb];
    [|split; [discriminate | intuition discriminate]].
  destruct (publicUserConcent c); cbn [negb];
    [|split; [discriminate | intuition discriminate]].
  destruct (RegExp.test ZIP_RE (zip c)); cbn [negb];
    [|split; [discriminate | intuition discriminate]].
  destruct (String.eqb_spec (rawPhone c) "");
    destruct (RegExp.test e164 (rawPhone c)); cbn [negb andb];
    try (split; [discriminate | intuition discriminate]);
    (destruct (String.eqb_spec (rawBudget c) ""); cbn [negb andb];
     [intuition congruence|];
     destruct (String.eqb_spec (budgetDigits c) "");
     destruct (isNaN' (budgetNumber c)); destruct (ltZero' (budgetNumber c));
     cbn [orb]; intuition congruence).
Qed.

Lemma handle_bad_request v w db c k :
  response (handle v w db c) = BadRequest k <-> validate c = inl k.
Proof.
  unfold handle. destruct (validate c) as [k'|phone]; simpl.
  - split; congruence.
  - destruct (geocodeZipWithGoogle w _) as [sent [err|geo]];
      [|unfold commit; destruct (commitSucceeds w)]; simpl; split; discriminate.
Qed.

Lemma missing_required_all (body : gmap string formValue) :
  normalize body <> None /\
  Exists (fun k => Js.every Js.isWhiteSpace <$> stringOrEmpty (body !! k) = Some true)
         ["name"; "email"; "project"; "zip"] <->
  Forall (fun k => stringOrEmpty (body !! k) <> None) textFields /\
  Exists (fun k => Js.every Js.isWhiteSpace <$> stringOrEmpty (body !! k) = Some true)
         ["name"; "email"; "project"; "zip"].
Proof.
  rewrite normalize_None, <- Forall_Exists_neg. tauto.
Qed.

(** The first check fails exactly when the name, the email, the project or
    the ZIP code is converted to white space only. *)
Lemma missing_required_spec (body : gmap string formValue) c :
  normalize body = Some c ->
  validate c = inl MissingRequired <->
  Exists (fun k => Js.every Js.isWhiteSpace <$> stringOrEmpty (body !! k) = Some true)
         ["name"; "email"; "project"; "zip"].
Proof.
  intros (name & email & phone & project & zip' & budgetText & Hname & Hemail & _
          & Hproject & Hzip & _ & ->)%normalize_Some.
  rewrite (validate_nth 0 MissingRequired _ _ eq_refl). cbn beta.
  rewrite !Exists_cons, Exists_nil, !orb_true_iff, !String.eqb_eq.
  cbn [publicUserName publicUserEmail projectText zip firstn firstFailure].
  rewrite toLowerCase_empty, !trim_empty, Hname, Hemail, Hproject, Hzip.
  cbn [fmap option_fmap option_map]. intuition congruence.
Qed.

(** X1.  The handler throws exactly when the conversion of one of its six
    text fields does.  The response is the MissingRequired page exactly
    when none of the six conversions throws and the name, the email, the
    project or the ZIP code field is absent, empty or converted to white
    space only, whatever else the fields hold. *)
Theorem X1_missing_required
    (v : variant) (w : World) (db : Firestore) (body : gmap string formValue) :
  (lead v w db body = None <->
   Exists (fun k => stringOrEmpty (body !! k) = None) textFields) /\
  (response <$> lead v w db body = Some (BadRequest MissingRequired) <->
   Forall (fun k => stringOrEmpty (body !! k) <> None) textFields /\
   Exists (fun k => Js.every Js.isWhiteSpace <$> stringOrEmpty (body !! k) = Some true)
          ["name"; "email"; "project"; "zip"]).
Proof.
  split; [rewrite lead_None; apply normalize_None|].
  rewrite <- (missing_required_all body).
  unfold lead. destruct (normalize body) as [c|] eqn:Hn; simpl.
  - rewrite <- (missing_required_spec body c Hn), <- (handle_bad_request v w db c).
    split; [intros [= H]; split; [discriminate | exact H] | intros [_ ->]; reflexivity].
  - split; [discriminate | intros [H _]; congruence].
Qed.

(** X2.  The response is InvalidZip exactly when the three earlier checks
    pass and the trimmed ZIP code is not made of exactly five decimal
    digits. *)
Theorem X2_invalid_zip c :
  validate c = inl InvalidZip <->
  firstFailure (firstn 3 specChecks) c = None /\
  ~ (String.length (zip c) = 5 /\ Js.every Js.isDigit (zip c) = true).
Proof.
  rewrite (validate_nth 3 InvalidZip _ c eq_refl). cbn beta.
  rewrite negb_true_iff, <- zip_pattern.
  destruct (RegExp.test ZIP_RE (zip c)); intuition congruence.
Qed.

(** X3.  A submission the validator accepts has a name and a project, an
    email that matches the email pattern, consent, a ZIP code of five
    digits, a phone that is empty or in E.164 form, and a budget text that
    is empty or contains a digit; the phone handed on is the trimmed
    phone. *)
Theorem X3_accepted_is_well_formed c phone :
  validate c = inr phone ->
  publicUserName c <> "" /\ projectText c <> "" /\
  isValidEmail (publicUserEmail c) = true /\
  publicUserConcent c = true /\
  (String.length (zip c) = 5 /\ Js.every Js.isDigit (zip c) = true) /\
  phone = rawPhone c /\
  (phone = "" \/ RegExp.test e164 phone = true) /\
  (rawBudget c = "" \/ budgetDigits c <> "").
Proof.
  intros [Hf ->]%validate_accepts.
  apply firstFailure_none in Hf as ((Hn & _ & Hp & _) & He & Hc & Hz & Hph & Hb).
  apply zip_pattern in Hz as [Hz1 Hz2].
  split_and!; try assumption; try reflexivity.
  destruct Hb as [Hb | [Hb _]]; auto.
Qed.

Lemma X3_accepted_witness :
  exists c,
    normalize sampleBody = Some c /\
    publicUserConcent c = true /\ String.length (zip c) = 5.
Proof.
  destruct (normalize sampleBody) as [c|] eqn:Hn; [|vm_compute in Hn; discriminate Hn].
  destruct (X3_accepted_is_well_formed c "+18885551234")
    as (_ & _ & _ & Hc & (Hz & _) & _);
    [vm_compute in Hn; injection Hn as <-; vm_compute; reflexivity|].
  exists c. split_and!; [reflexivity | exact Hc | exact Hz].
Defined.

End ValidationMore.

(* ===================================================================== *)
(** * More on the lead handler *)
(* ===================================================================== *)

(** The four ways through the handler once the fields are converted. *)
Lemma handle_cases (v : variant) (w : World) (db : Firestore) (c : Candidate) :
  let sent := (geocodeZipWithGoogle w (zip c)).1 in
  (exists k,
     validate c = inl k /\
     handle v w db c =
     {| response := BadRequest k; store := db; requests := []; logged := None |}) \/
  (exists phone err,
     validate c = inr phone /\ (geocodeZipWithGoogle w (zip c)).2 = inl err /\
     handle v w db c =
     {| response := SorryNotSaved; store := db; requests := sent;
        logged := Some err |}) \/
  (exists phone geo,
     validate c = inr phone /\ (geocodeZipWithGoogle w (zip c)).2 = inr geo /\
     commitSucceeds w = false /\
     handle v w db c =
     {| response := SorryNotSaved; store := db; requests := sent;
        logged := Some CommitRejected |}) \/
  (exists phone geo,
     validate c = inr phone /\ (geocodeZipWithGoogle w (zip c)).2 = inr geo /\
     commitSucceeds w = true /\
     handle v w db c =
     {| response :=
          Thanks (zip c)
            (match v with ServerJs => None | EarlierServer => Some (autoId w) end);
        store :=
          {| PublicUserInfo :=
               <[autoId w := publicPayload v (autoId w) phone c]> (PublicUserInfo db);
             UserLocation :=
               <[autoId w := locationPayload (autoId w) c geo]> (UserLocation db) |};
        requests := sent; logged := None |}).
Proof.
  intros sent.
  destruct (validate c) as [k|phone] eqn:Hv.
  { left. exists k. split; [reflexivity|]. apply handle_rejected, Hv. }
  destruct (geocodeZipWithGoogle w (zip c)).2 as [err|geo] eqn:Hg.
  { right; left. exists phone, err. split_and!; try reflexivity.
    apply (handle_geocode_failed v w db c phone err Hv Hg). }
  destruct (commitSucceeds w) eqn:Hc.
  - right; right; right. exists phone, geo. split_and!; try reflexivity.
    apply (handle_saved v w db c phone geo Hv Hg Hc).
  - right; right; left. exists phone, geo. split_and!; try reflexivity.
    apply (handle_commit_failed v w db c phone geo Hv Hg Hc).
Qed.

Lemma geocode_no_key (w : World) zip' :
  orEmpty (GOOGLE_GEOCODING_API_KEY w) = "" ->
  geocodeZipWithGoogle w zip' = ([], inl (Error "Missing GOOGLE_GEOCODING_API_KEY")).
Proof.
  unfold geocodeZipWithGoogle.
  destruct (GOOGLE_GEOCODING_API_KEY w) as [key|]; simpl; [|reflexivity].
  intros ->. reflexivity.
Qed.

Lemma geocode_with_key (w : World) zip' key :
  GOOGLE_GEOCODING_API_KEY w = Some key -> key <> "" ->
  (geocodeZipWithGoogle w zip').1 = [geocodeUrl zip' key].
Proof.
  intros Hk Hne%truthy_true. unfold geocodeZipWithGoogle. rewrite Hk, Hne.
  cbn [negb]. destruct (fetch w _) as [|st json]; [reflexivity|].
  destruct (ok st); [destruct json|]; reflexivity.
Qed.

Lemma encode_digit a : Js.isDigit a = true -> Js.encodeChar a = String a "".
Proof.
  intros H. destruct a as [[] [] [] [] [] [] [] []];
    try (vm_compute in H; discriminate H); reflexivity.
Qed.

Lemma encode_digits s t :
  Js.every Js.isDigit s = true ->
  Js.encodeURIComponent (s +:+ t) = s +:+ Js.encodeURIComponent t.
Proof.
  induction s as [|a s IH]; simpl; [reflexivity|].
  rewrite andb_true_iff. intros [Ha Hs].
  rewrite ?app_cons. simpl. rewrite (encode_digit a Ha), IH by assumption.
  reflexivity.
Qed.

(** X6.  Handling a submission whose fields can be converted fetches at
    most one URL, and none when validation fails or the API key is unset or
    empty.  The URL fetched carries the five digits of the validated ZIP
    code unchanged, followed by the escaped text ", USA", and the escaped
    key. *)
Theorem X6_one_lookup_per_submission
    (v : variant) (w : World) (db : Firestore) (body : gmap string formValue)
    (c : Candidate) :
  normalize body = Some c ->
  exists out,
    lead v w db body = Some out /\
    length (requests out) <= 1 /\
    (forall k, validate c = inl k -> requests out = []) /\
    (orEmpty (GOOGLE_GEOCODING_API_KEY w) = "" -> requests out = []) /\
    (forall url, In url (requests out) ->
       exists key,
         GOOGLE_GEOCODING_API_KEY w = Some key /\ key <> "" /\
         String.length (zip c) = 5 /\ Js.every Js.isDigit (zip c) = true /\
         url = "https://maps.googleapis.com/maps/api/geocode/json?address=" +:+
               zip c +:+ "%2C%20USA&key=" +:+ Js.encodeURIComponent key).
Proof.
  intros Hn. exists (handle v w db c). split; [apply lead_Some, Hn|].
  set (out := handle v w db c).
  assert (Hreq : requests out = [] \/
                 exists phone, validate c = inr phone /\
                               requests out = (geocodeZipWithGoogle w (zip c)).1).
  { subst out. destruct (handle_cases v w db c) as
        [(k & _ & ->) | [(p & e & Hv & _ & ->) | [(p & g & Hv & _ & _ & ->)
                                                | (p & g & Hv & _ & _ & ->)]]];
      simpl; eauto. }
  assert (Hkey : orEmpty (GOOGLE_GEOCODING_API_KEY w) = "" \/
                 exists key, GOOGLE_GEOCODING_API_KEY w = Some key /\ key <> "").
  { destruct (GOOGLE_GEOCODING_API_KEY w) as [[|a key]|]; simpl;
      [left; reflexivity | | left; reflexivity].
    right. eexists. split; [reflexivity | discriminate]. }
  split_and!.
  - destruct Hreq as [-> | (p & _ & ->)]; [simpl; lia|].
    destruct Hkey as [Hk | (key & Hk & Hne)].
    + rewrite (geocode_no_key w _ Hk). simpl. lia.
    + rewrite (geocode_with_key w _ _ Hk Hne). simpl. lia.
  - intros k Hv. destruct Hreq as [-> | (p & Hp & _)]; [reflexivity | congruence].
  - intros Hk. destruct Hreq as [-> | (p & _ & ->)]; [reflexivity|].
    rewrite (geocode_no_key w _ Hk). reflexivity.
  - intros url Hin. destruct Hreq as [Hr | (p & Hv & Hr)]; rewrite Hr in Hin;
      [destruct Hin|].
    destruct Hkey as [Hk | (key & Hk & Hne)].
    + rewrite (geocode_no_key w _ Hk) in Hin. destruct Hin.
    + rewrite (geocode_with_key w _ _ Hk Hne) in Hin.
      destruct Hin as [<- | []].
      apply validate_accepts in Hv as [Hf _].
      apply firstFailure_none in Hf as (_ & _ & _ & Hz & _).
      apply zip_pattern in Hz as [Hz1 Hz2].
      exists key. split_and!; try assumption.
      unfold geocodeUrl. rewrite (encode_digits _ _ Hz2), app_assoc. reflexivity.
Qed.

Lemma X6_one_lookup_witness :
  exists out,
    lead ServerJs sampleWorld emptyStore sampleBody = Some out /\
    requests out =
      ["https://maps.googleapis.com/maps/api/geocode/json?address=06119%2C%20USA&key=test-key"] /\
    exists key, GOOGLE_GEOCODING_API_KEY sampleWorld = Some key /\ key <> "".
Proof.
  destruct (normalize sampleBody) as [c|] eqn:Hn; [|vm_compute in Hn; discriminate Hn].
  destruct (X6_one_lookup_per_submission ServerJs sampleWorld emptyStore sampleBody
              c Hn) as (out & Hout & _ & _ & _ & H).
  assert (Hr : requests out =
               ["https://maps.googleapis.com/maps/api/geocode/json?address=06119%2C%20USA&key=test-key"])
    by (apply (observed requests _ _ _ Hout); vm_compute; reflexivity).
  exists out. split_and!; [exact Hout | exact Hr |].
  destruct (H "https://maps.googleapis.com/maps/api/geocode/json?address=06119%2C%20USA&key=test-key")
    as (key & Hk & Hne & _); [rewrite Hr; left; reflexivity|].
  exists key. split; assumption.
Defined.

(** X7.  Whatever makes the geocoder or the commit fail, the response is
    the same 500 page and the store is left as it was; the error itself
    goes to [console.error] only.  Nothing is logged for a 400 or a
    success response. *)
Theorem X7_failure_is_generic_and_logged
    (v : variant) (w : World) (db : Firestore) (body : gmap string formValue)
    (c : Candidate) :
  normalize body = Some c ->
  exists out,
    lead v w db body = Some out /\
    (response out = SorryNotSaved <-> exists err, logged out = Some err) /\
    (forall err,
       logged out = Some err ->
       store out = db /\
       ((geocodeZipWithGoogle w (zip c)).2 = inl err \/
        err = CommitRejected /\ commitSucceeds w = false)).
Proof.
  intros Hn. exists (handle v w db c). split; [apply lead_Some, Hn|].
  destruct (handle_cases v w db c) as
      [(k & _ & ->) | [(p & e & _ & Hg & ->) | [(p & g & _ & _ & Hc & ->)
                                              | (p & g & _ & _ & _ & ->)]]];
    simpl; split.
  - split; [discriminate | intros (err & ?); discriminate].
  - discriminate.
  - split; eauto.
  - intros err [= <-]. auto.
  - split; eauto.
  - intros err [= <-]. auto.
  - split; [discriminate | intros (err & ?); discriminate].
  - discriminate.
Qed.

Lemma X7_failure_witness :
  let w' := {| GOOGLE_GEOCODING_API_KEY := None; fetch := fetch sampleWorld;
               autoId := autoId sampleWorld; commitSucceeds := true |} in
  store <$> lead ServerJs w' emptyStore sampleBody = Some emptyStore.
Proof.
  intros w'.
  destruct (normalize sampleBody) as [c|] eqn:Hn; [|vm_compute in Hn; discriminate Hn].
  destruct (X7_failure_is_generic_and_logged ServerJs w' emptyStore sampleBody c Hn)
    as (out & Hout & _ & H).
  rewrite Hout. refine (f_equal Some _).
  apply (H (Error "Missing GOOGLE_GEOCODING_API_KEY")).
  apply (observed logged _ _ _ Hout). vm_compute. reflexivity.
Defined.

(** X8.  A request never changes or removes a document stored under
    another identifier than the one generated for it, in either
    collection, and never removes a document at all. *)
Theorem X8_other_documents_untouched
    (v : variant) (w : World) (db : Firestore) (body : gmap string formValue)
    (c : Candidate) :
  normalize body = Some c ->
  exists out,
    lead v w db body = Some out /\
    (forall id, id <> autoId w ->
       PublicUserInfo (store out) !! id = PublicUserInfo db !! id /\
       UserLocation (store out) !! id = UserLocation db !! id) /\
    (forall id,
       (is_Some (PublicUserInfo db !! id) -> is_Some (PublicUserInfo (store out) !! id)) /\
       (is_Some (UserLocation db !! id) -> is_Some (UserLocation (store out) !! id))).
Proof.
  intros Hn. exists (handle v w db c). split; [apply lead_Some, Hn|].
  destruct (handle_cases v w db c) as
      [(k & _ & ->) | [(p & e & _ & _ & ->) | [(p & g & _ & _ & _ & ->)
                                             | (p & g & _ & _ & _ & ->)]]];
    simpl; split; auto.
  - intros id Hne. rewrite !lookup_insert_ne by congruence. auto.
  - intros id. destruct (decide (autoId w = id)) as [<-|Hne].
    + rewrite !lookup_insert_eq. split; eauto.
    + rewrite !lookup_insert_ne by assumption. auto.
Qed.

Lemma X8_other_documents_witness :
  exists out,
    lead ServerJs sampleWorld emptyStore sampleBody = Some out /\
    PublicUserInfo (store out) !! "Bc8dE1fGh2IjK3lMn4Op"
    = PublicUserInfo emptyStore !! "Bc8dE1fGh2IjK3lMn4Op".
Proof.
  destruct (normalize sampleBody) as [c|] eqn:Hn; [|vm_compute in Hn; discriminate Hn].
  destruct (X8_other_documents_untouched ServerJs sampleWorld emptyStore sampleBody
              c Hn) as (out & Hout & H & _).
  assert (Hne : "Bc8dE1fGh2IjK3lMn4Op" <> autoId sampleWorld) by discriminate.
  exists out. split; [exact Hout | exact (proj1 (H _ Hne))].
Defined.

(* ===================================================================== *)
(** * What is stored *)
(* ===================================================================== *)

Lemma publicPayload_fields (v : variant) (uid phone : string) (c : Candidate) :
  let p := publicPayload v uid phone c in
  p !! "publicUserName" = Some (VString (publicUserName c)) /\
  p !! "publicUserEmail" = Some (VString (publicUserEmail c)) /\
  p !! "publicUserPhone" = Some (VString phone) /\
  p !! "projectText" = Some (VString (projectText c)) /\
  p !! "readyToHire" = Some (VBoolean (readyToHire c)) /\
  p !! "urgent" = Some (VBoolean (urgent c)) /\
  p !! "publicUserConcent" = Some (VBoolean (publicUserConcent c)) /\
  p !! "postedDate" = Some VServerTimestamp.
Proof.
  unfold publicPayload. destruct v, (budgetNumber c); split_and!; reflexivity.
Qed.

Lemma locationPayload_fields (uid : string) (c : Candidate) (geo : GeoResult) :
  let l := locationPayload uid c geo in
  l !! "name" = Some (VString (publicUserName c)) /\
  l !! "contractor" = Some (VBoolean false) /\
  l !! "latitude" = Some (VNumber (latitude geo)) /\
  l !! "longitude" = Some (VNumber (longitude geo)) /\
  l !! "altitude" = Some (VNumber (Js.ofZ 0)) /\
  l !! "userState" = Some (VString (orEmpty (userState geo))) /\
  l !! "userTown" = Some (VString (orEmpty (userTown geo))) /\
  l !! "zipcode" = Some (VString (zip c)) /\
  l !! "postedDate" = Some VServerTimestamp.
Proof. unfold locationPayload. split_and!; reflexivity. Qed.

Lemma lowerChar_space a : Js.isWhiteSpace (Js.lowerChar a) = Js.isWhiteSpace a.
Proof. destruct a as [[] [] [] [] [] [] [] []]; reflexivity. Qed.

Lemma toLowerCase_start s :
  Js.startsWithSpace (Js.toLowerCase s) = Js.startsWithSpace s.
Proof. destruct s; simpl; [reflexivity | apply lowerChar_space]. Qed.

Lemma toLowerCase_end s :
  Js.endsWithSpace (Js.toLowerCase s) = Js.endsWithSpace s.
Proof.
  induction s as [|a s IH]; [reflexivity|].
  destruct s as [|b s]; [apply lowerChar_space | exact IH].
Qed.

Lemma trim_no_outer_space s :
  Js.startsWithSpace (Js.trim s) = false /\ Js.endsWithSpace (Js.trim s) = false.
Proof. destruct (trim_spec s) as (l & r & _ & _ & _ & H1 & H2). auto. Qed.

(** A successful run of the geocoder, read backwards. *)
Lemma geocode_success_inv (w : World) (zip' : string) (geo : GeoResult) :
  (geocodeZipWithGoogle w zip').2 = inr geo ->
  exists key httpStatus data r rest,
    GOOGLE_GEOCODING_API_KEY w = Some key /\ key <> "" /\
    fetch w (geocodeUrl zip' key) = Responds httpStatus (Some data) /\
    ok httpStatus = true /\
    status data = Some "OK" /\ results data = Some (r :: rest) /\
    geometry r ≫= location =
      Some {| lat := JNum (latitude geo); lng := JNum (longitude geo) |} /\
    userTown geo = (extractTownState r).1 /\
    userState geo = (extractTownState r).2.
Proof.
  unfold geocodeZipWithGoogle.
  destruct (GOOGLE_GEOCODING_API_KEY w) as [key|]; [|discriminate].
  destruct (Js.truthy key) eqn:Hk; cbn [negb]; [|discriminate].
  destruct (fetch w (geocodeUrl zip' key)) as [|st json] eqn:Hf; [discriminate|].
  destruct (ok st) eqn:Hok; cbn [negb]; [|discriminate].
  destruct json as [data|]; [|discriminate]. cbn [snd].
  unfold readGeocodeData.
  destruct (lookupFailed data) eqn:Hl; [discriminate|].
  assert (Hs : status data = Some "OK").
  { unfold lookupFailed in Hl. apply orb_false_iff in Hl as [Hl _].
    apply negb_false_iff in Hl. destruct (status data) as [s|]; [|discriminate].
    apply String.eqb_eq in Hl. congruence. }
  destruct (results data) as [[|r rest]|] eqn:Hr; try discriminate.
  destruct (geometry r ≫= location) as [[la ln]|] eqn:Hloc; [|discriminate].
  destruct la, ln; try discriminate.
  destruct (extractTownState r) as [town state] eqn:Hts.
  intros [= <-]. exists key, st, data, r, rest.
  apply truthy_true in Hk. rewrite Hts. split_and!; auto.
Qed.

(** What the normalizer guarantees of the name, the email and the consent
    flag. *)
Lemma normalize_shape (body : gmap string formValue) (c : Candidate) :
  normalize body = Some c ->
  (publicUserConcent c = true <-> body !! "concent" = Some (FStr "yes")) /\
  Js.startsWithSpace (publicUserName c) = false /\
  Js.endsWithSpace (publicUserName c) = false /\
  Js.every (fun a => negb (Js.isUpper a)) (publicUserEmail c) = true.
Proof.
  intros (name & email & phone & project & zip' & budgetText & _ & _ & _ & _ & _
          & _ & ->)%normalize_Some.
  cbn [publicUserConcent publicUserName publicUserEmail].
  split_and!; [apply isYes_spec | apply trim_no_outer_space
              | apply trim_no_outer_space | apply toLowerCase_no_upper].
Qed.

(** X4.  A PublicUserInfo document is written only for a submission whose
    consent field is the string "yes".  It holds a name and a project that
    are not empty, the name without white space at either end, an email
    that matches the email pattern and has no upper-case letter, a phone
    that is empty or in E.164 form, the consent flag true and the server
    time stamp. *)
Theorem X4_stored_profile_is_valid
    (v : variant) (w : World) (db : Firestore) (body : gmap string formValue)
    (c : Candidate) :
  normalize body = Some c ->
  exists out,
    lead v w db body = Some out /\
    forall zipShown reference,
      response out = Thanks zipShown reference ->
      exists public,
        PublicUserInfo (store out) !! autoId w = Some public /\
        body !! "concent" = Some (FStr "yes") /\
        public !! "publicUserConcent" = Some (VBoolean true) /\
        (public !! "publicUserName" = Some (VString (publicUserName c)) /\
         publicUserName c <> "" /\
         Js.startsWithSpace (publicUserName c) = false /\
         Js.endsWithSpace (publicUserName c) = false) /\
        (public !! "publicUserEmail" = Some (VString (publicUserEmail c)) /\
         isValidEmail (publicUserEmail c) = true /\
         Js.every (fun a => negb (Js.isUpper a)) (publicUserEmail c) = true) /\
        (public !! "publicUserPhone" = Some (VString (rawPhone c)) /\
         (rawPhone c = "" \/ RegExp.test e164 (rawPhone c) = true)) /\
        (public !! "projectText" = Some (VString (projectText c)) /\
         projectText c <> "") /\
        public !! "postedDate" = Some VServerTimestamp.
Proof.
  intros Hn. exists (handle v w db c). split; [apply lead_Some, Hn|].
  intros zipShown reference Hresp.
  destruct (normalize_shape body c Hn) as (Hyes & Hstart & Hend & Hlower).
  destruct (handle_cases v w db c) as
      [(k & _ & Hl) | [(p & e & _ & _ & Hl) | [(p & g & _ & _ & _ & Hl)
                                             | (p & g & Hv & _ & _ & Hl)]]];
    rewrite Hl in Hresp |- *; try discriminate. clear Hl Hresp.
  apply validate_accepts in Hv as [Hf ->].
  apply firstFailure_none in Hf as ((Hne & _ & Hp & _) & He & Hc & _ & Hph & _).
  destruct (publicPayload_fields v (autoId w) (rawPhone c) c)
    as (F1 & F2 & F3 & F4 & _ & _ & F7 & F8).
  exists (publicPayload v (autoId w) (rawPhone c) c). cbn [store PublicUserInfo].
  rewrite lookup_insert_eq, F7, Hc.
  split_and!; try assumption; try reflexivity.
  apply Hyes, Hc.
Qed.

Lemma X4_stored_profile_witness :
  exists out public,
    lead ServerJs sampleWorld emptyStore sampleBody = Some out /\
    PublicUserInfo (store out) !! autoId sampleWorld = Some public /\
    public !! "publicUserConcent" = Some (VBoolean true).
Proof.
  destruct (normalize sampleBody) as [c|] eqn:Hn; [|vm_compute in Hn; discriminate Hn].
  destruct (X4_stored_profile_is_valid ServerJs sampleWorld emptyStore sampleBody
              c Hn) as (out & Hout & H).
  destruct (H "06119" None) as (public & H1 & _ & H2 & _);
    [apply (observed response _ _ _ Hout); vm_compute; reflexivity|].
  exists out, public. split_and!; [exact Hout | exact H1 | exact H2].
Defined.

(** X5.  The UserLocation document written for a submission holds the ZIP
    code the success page shows, which has five digits, the name of the
    profile document, contractor false and altitude 0, and the latitude,
    longitude, town and state read from the first result of the answer
    fetched for that ZIP code. *)
Theorem X5_stored_location_is_geocoded
    (v : variant) (w : World) (db : Firestore) (body : gmap string formValue)
    (c : Candidate) :
  normalize body = Some c ->
  exists out,
    lead v w db body = Some out /\
    forall zipShown reference,
      response out = Thanks zipShown reference ->
      exists place key httpStatus data r rest la ln,
        UserLocation (store out) !! autoId w = Some place /\
        (place !! "zipcode" = Some (VString zipShown) /\
         String.length zipShown = 5 /\ Js.every Js.isDigit zipShown = true) /\
        place !! "name" = Some (VString (publicUserName c)) /\
        place !! "contractor" = Some (VBoolean false) /\
        place !! "altitude" = Some (VNumber (Js.ofZ 0)) /\
        (GOOGLE_GEOCODING_API_KEY w = Some key /\
         fetch w (geocodeUrl zipShown key) = Responds httpStatus (Some data) /\
         results data = Some (r :: rest) /\
         geometry r ≫= location = Some {| lat := JNum la; lng := JNum ln |}) /\
        place !! "latitude" = Some (VNumber la) /\
        place !! "longitude" = Some (VNumber ln) /\
        place !! "userTown" = Some (VString (orEmpty (extractTownState r).1)) /\
        place !! "userState" = Some (VString (orEmpty (extractTownState r).2)).
Proof.
  intros Hn. exists (handle v w db c). split; [apply lead_Some, Hn|].
  intros zipShown reference Hresp.
  destruct (handle_cases v w db c) as
      [(k & _ & Hl) | [(p & e & _ & _ & Hl) | [(p & g & _ & _ & _ & Hl)
                                             | (p & g & Hv & Hg & _ & Hl)]]];
    rewrite Hl in Hresp |- *; try discriminate. clear Hl.
  injection Hresp as <- _.
  apply validate_accepts in Hv as [Hf _].
  apply firstFailure_none in Hf as (_ & _ & _ & Hz & _).
  apply zip_pattern in Hz as [Hz1 Hz2].
  apply geocode_success_inv in Hg
    as (key & st & data & r & rest & Hk & _ & Hfetch & _ & _ & Hr & Hloc & Ht & Hs).
  destruct (locationPayload_fields (autoId w) c g)
    as (F1 & F2 & F3 & F4 & F5 & F6 & F7 & F8 & _).
  exists (locationPayload (autoId w) c g), key, st, data, r, rest,
    (latitude g), (longitude g).
  cbn [store UserLocation]. rewrite lookup_insert_eq, <- Ht, <- Hs.
  split_and!; try assumption; reflexivity.
Qed.

Lemma X5_stored_location_witness :
  exists out place,
    lead ServerJs sampleWorld emptyStore sampleBody = Some out /\
    UserLocation (store out) !! autoId sampleWorld = Some place /\
    place !! "zipcode" = Some (VString "06119").
Proof.
  destruct (normalize sampleBody) as [c|] eqn:Hn; [|vm_compute in Hn; discriminate Hn].
  destruct (X5_stored_location_is_geocoded ServerJs sampleWorld emptyStore sampleBody
              c Hn) as (out & Hout & H).
  destruct (H "06119" None)
    as (place & key & st & data & r & rest & la & ln & H1 & (H2 & _) & _);
    [apply (observed response _ _ _ Hout); vm_compute; reflexivity|].
  exists out, place. split_and!; [exact Hout | exact H1 | exact H2].
Defined.

(* ===================================================================== *)
(** * Requests one after the other, and the two versions *)
(* ===================================================================== *)

(** X9.  No deduplication: when two submissions, equal or not, are saved
    one after the other under different generated identifiers, the
    documents of the first are still there, unchanged, next to those of
    the second.  Under the same identifier the second pair replaces the
    first. *)
Theorem X9_two_submissions_two_pairs
    (v : variant) (w1 w2 : World) (db : Firestore)
    (body1 body2 : gmap string formValue) (c1 c2 : Candidate) :
  normalize body1 = Some c1 -> normalize body2 = Some c2 ->
  exists out1 out2,
    lead v w1 db body1 = Some out1 /\
    lead v w2 (store out1) body2 = Some out2 /\
    forall zip1 ref1 zip2 ref2,
      response out1 = Thanks zip1 ref1 ->
      response out2 = Thanks zip2 ref2 ->
      (is_Some (PublicUserInfo (store out2) !! autoId w2) /\
       is_Some (UserLocation (store out2) !! autoId w2)) /\
      (autoId w1 <> autoId w2 ->
       is_Some (PublicUserInfo (store out1) !! autoId w1) /\
       PublicUserInfo (store out2) !! autoId w1 = PublicUserInfo (store out1) !! autoId w1 /\
       UserLocation (store out2) !! autoId w1 = UserLocation (store out1) !! autoId w1) /\
      (autoId w1 = autoId w2 ->
       exists phone geo,
         PublicUserInfo (store out2) !! autoId w1 =
           Some (publicPayload v (autoId w2) phone c2) /\
         UserLocation (store out2) !! autoId w1 =
           Some (locationPayload (autoId w2) c2 geo)).
Proof.
  intros Hn1 Hn2.
  exists (handle v w1 db c1), (handle v w2 (store (handle v w1 db c1)) c2).
  split; [apply lead_Some, Hn1|]. split; [apply lead_Some, Hn2|].
  intros zip1 ref1 zip2 ref2 H1 H2.
  destruct (handle_cases v w2 (store (handle v w1 db c1)) c2) as
      [(k & _ & Hl) | [(p & e & _ & _ & Hl) | [(p & g & _ & _ & _ & Hl)
                                             | (p2 & g2 & _ & _ & _ & Hl2)]]];
    try (rewrite Hl in H2; discriminate).
  rewrite Hl2. clear Hl2 H2. cbn [store PublicUserInfo UserLocation].
  destruct (handle_cases v w1 db c1) as
      [(k & _ & Hl) | [(p & e & _ & _ & Hl) | [(p & g & _ & _ & _ & Hl)
                                             | (p1 & g1 & _ & _ & _ & Hl1)]]];
    try (rewrite Hl in H1; discriminate).
  rewrite Hl1. clear Hl1 H1. cbn [store PublicUserInfo UserLocation].
  split_and!.
  - rewrite lookup_insert_eq. eauto.
  - rewrite lookup_insert_eq. eauto.
  - intros Hne. rewrite !(lookup_insert_ne _ (autoId w2)) by congruence.
    rewrite !lookup_insert_eq. eauto.
  - intros Heq. exists p2, g2. rewrite Heq, !lookup_insert_eq. auto.
Qed.

Lemma X9_two_submissions_witness :
  let w2 := {| GOOGLE_GEOCODING_API_KEY := Some "test-key";
               fetch := fetch sampleWorld;
               autoId := "Bc8dE1fGh2IjK3lMn4Op"; commitSucceeds := true |} in
  exists out1 out2,
    lead ServerJs sampleWorld emptyStore sampleBody = Some out1 /\
    lead ServerJs w2 (store out1) sampleBody = Some out2 /\
    is_Some (PublicUserInfo (store out2) !! "Bc8dE1fGh2IjK3lMn4Op") /\
    is_Some (UserLocation (store out2) !! "Bc8dE1fGh2IjK3lMn4Op").
Proof.
  intros w2.
  destruct (normalize sampleBody) as [c|] eqn:Hn; [|vm_compute in Hn; discriminate Hn].
  destruct (X9_two_submissions_two_pairs ServerJs sampleWorld w2 emptyStore
              sampleBody sampleBody c c Hn Hn) as (out1 & out2 & H1 & H2 & H).
  exists out1, out2. split; [exact H1|]. split; [exact H2|].
  refine (proj1 (H "06119" None "06119" None _ _)).
  - apply (observed response _ _ _ H1). vm_compute. reflexivity.
  - assert (H12 : response <$>
                    (lead ServerJs sampleWorld emptyStore sampleBody
                       ≫= fun o => lead ServerJs w2 (store o) sampleBody)
                  = Some (Thanks "06119" None)) by (vm_compute; reflexivity).
    rewrite H1 in H12. cbn [mbind option_bind] in H12.
    exact (observed response _ _ _ H2 H12).
Defined.

(** X10.  The two versions of the server throw for the same submissions.
    Otherwise they answer with the same status code, fetch the same URL,
    log the same error and write the same UserLocation document; their
    PublicUserInfo documents agree on every field but budgetText, and are
    equal when a budget was given. *)
Theorem X10_versions_agree
    (w : World) (db : Firestore) (body : gmap string formValue) :
  (lead ServerJs w db body = None <-> lead EarlierServer w db body = None) /\
  forall c : Candidate,
    normalize body = Some c ->
    exists a b,
      lead ServerJs w db body = Some a /\
      lead EarlierServer w db body = Some b /\
      statusCode (response a) = statusCode (response b) /\
      requests a = requests b /\ logged a = logged b /\
      UserLocation (store a) = UserLocation (store b) /\
      (forall id field,
         field <> "budgetText" ->
         PublicUserInfo (store a) !! id ≫= (.!! field) =
         PublicUserInfo (store b) !! id ≫= (.!! field)) /\
      (budgetNumber c <> None -> store a = store b).
Proof.
  split; [rewrite !lead_None; tauto|].
  intros c Hn. exists (handle ServerJs w db c), (handle EarlierServer w db c).
  split; [apply lead_Some, Hn|]. split; [apply lead_Some, Hn|].
  unfold handle.
  destruct (validate c) as [k|phone]; [simpl; tauto|].
  destruct (geocodeZipWithGoogle w _) as [sent [err|geo]]; [simpl; tauto|].
  unfold commit. destruct (commitSucceeds w); [|simpl; tauto].
  cbn [fold_left leadBatch applyWrite target docId data store response requests
       logged statusCode PublicUserInfo UserLocation].
  split_and!; try reflexivity.
  - intros id field Hf. destruct (decide (autoId w = id)) as [<-|Hne].
    + rewrite !lookup_insert_eq. cbn [mbind option_bind]. unfold publicPayload.
      destruct (budgetNumber c); [reflexivity|].
      rewrite (lookup_insert_ne _ "budgetText") by congruence. reflexivity.
    + rewrite !lookup_insert_ne by assumption. reflexivity.
  - intros H. unfold publicPayload.
    destruct (budgetNumber c); [reflexivity | congruence].
Qed.

Lemma X10_versions_agree_witness :
  store <$> lead ServerJs sampleWorld emptyStore sampleBody =
  store <$> lead EarlierServer sampleWorld emptyStore sampleBody.
Proof.
  destruct (normalize sampleBody) as [c|] eqn:Hn; [|vm_compute in Hn; discriminate Hn].
  destruct (X10_versions_agree sampleWorld emptyStore sampleBody) as (_ & H).
  destruct (H c Hn) as (a & b & Ha & Hb & _ & _ & _ & _ & _ & Heq).
  rewrite Ha, Hb. refine (f_equal Some _). apply Heq.
  vm_compute in Hn. injection Hn as <-. discriminate.
Defined.

(* ===================================================================== *)
(** * What the normalizer does not look at *)
(* ===================================================================== *)

Lemma normalize_congr (b1 b2 : gmap string formValue) :
  (forall k, In k textFields ->
     Js.trim <$> stringOrEmpty (b1 !! k) = Js.trim <$> stringOrEmpty (b2 !! k)) ->
  (forall k, In k ["readyToHire"; "urgent"; "concent"] ->
     isYes (b1 !! k) = isYes (b2 !! k)) ->
  normalize b1 = normalize b2.
Proof.
  intros Ht Hy. unfold normalize, textFields in *.
  rewrite (Hy "readyToHire"), (Hy "urgent"), (Hy "concent") by (simpl; tauto).
  pose proof (Ht "name" ltac:(simpl; tauto)) as H1.
  pose proof (Ht "email" ltac:(simpl; tauto)) as H2.
  pose proof (Ht "phone" ltac:(simpl; tauto)) as H3.
  pose proof (Ht "project" ltac:(simpl; tauto)) as H4.
  pose proof (Ht "zip" ltac:(simpl; tauto)) as H5.
  pose proof (Ht "budgetText" ltac:(simpl; tauto)) as H6.
  clear Ht Hy.
  destruct (stringOrEmpty (b1 !! "name")), (stringOrEmpty (b2 !! "name"));
    try discriminate H1; [injection H1 as H1 | reflexivity].
  destruct (stringOrEmpty (b1 !! "email")), (stringOrEmpty (b2 !! "email"));
    try discriminate H2; [injection H2 as H2 | reflexivity].
  destruct (stringOrEmpty (b1 !! "phone")), (stringOrEmpty (b2 !! "phone"));
    try discriminate H3; [injection H3 as H3 | reflexivity].
  destruct (stringOrEmpty (b1 !! "project")), (stringOrEmpty (b2 !! "project"));
    try discriminate H4; [injection H4 as H4 | reflexivity].
  destruct (stringOrEmpty (b1 !! "zip")), (stringOrEmpty (b2 !! "zip"));
    try discriminate H5; [injection H5 as H5 | reflexivity].
  destruct (stringOrEmpty (b1 !! "budgetText")), (stringOrEmpty (b2 !! "budgetText"));
    try discriminate H6; [injection H6 as H6 | reflexivity].
  cbn [mbind option_bind]. rewrite H1, H2, H3, H4, H5, H6. reflexivity.
Qed.

(** X11.  The handler reads nine form fields and no other: adding, changing
    or removing any other field, one named "consent" or "budget" for
    instance, changes neither whether the handler throws, nor the response,
    nor what is stored. *)
Theorem X11_other_fields_ignored
    (v : variant) (w : World) (db : Firestore) (body : gmap string formValue)
    (k : string) (x : formValue) :
  ~ In k formFields ->
  lead v w db (<[k := x]> body) = lead v w db body /\
  lead v w db (delete k body) = lead v w db body.
Proof.
  intros Hk.
  assert (Hne : forall f, In f formFields -> k <> f) by (intros f Hf ->; auto).
  assert (Hi : forall f, In f formFields -> <[k := x]> body !! f = body !! f)
    by (intros f Hf; apply lookup_insert_ne, Hne, Hf).
  assert (Hd : forall f, In f formFields -> delete k body !! f = body !! f)
    by (intros f Hf; apply lookup_delete_ne, Hne, Hf).
  split; unfold lead; (rewrite (normalize_congr _ body); [reflexivity| |]);
    intros f Hf; (rewrite Hi || rewrite Hd); try reflexivity;
    unfold formFields, textFields in *; simpl in *; tauto.
Qed.

Lemma X11_other_fields_witness :
  response <$> lead ServerJs sampleWorld emptyStore
                 (<["consent" := FStr "yes"]> (delete "concent" sampleBody))
  = Some (BadRequest ConsentRequired).
Proof.
  assert (Hk : ~ In "consent" formFields)
    by (unfold formFields; simpl; intuition discriminate).
  rewrite (proj1 (X11_other_fields_ignored ServerJs sampleWorld emptyStore
                    (delete "concent" sampleBody) "consent" (FStr "yes") Hk)).
  vm_compute. reflexivity.
Defined.

Lemma trimStart_pad l s :
  Js.every Js.isWhiteSpace l = true -> Js.trimStart (l +:+ s) = Js.trimStart s.
Proof.
  induction l as [|a l IH]; simpl; [reflexivity|].
  rewrite andb_true_iff. intros [Ha Hl]. rewrite ?app_cons. simpl.
  rewrite Ha. auto.
Qed.

Lemma trimEnd_pad s r :
  Js.every Js.isWhiteSpace r = true -> Js.trimEnd (s +:+ r) = Js.trimEnd s.
Proof.
  intros Hr. induction s as [|a s IH].
  - rewrite ?app_nil_l. apply trimEnd_empty. exact Hr.
  - rewrite ?app_cons. simpl. rewrite IH. reflexivity.
Qed.

(** White space added on either side of a string is trimmed away with the
    white space that was there. *)
Lemma trim_pad l s r :
  Js.every Js.isWhiteSpace l = true -> Js.every Js.isWhiteSpace r = true ->
  Js.trim (l +:+ s +:+ r) = Js.trim s.
Proof.
  intros Hl Hr. unfold Js.trim. rewrite (trimStart_pad _ _ Hl).
  induction s as [|a s IH].
  - rewrite ?app_nil_l. apply trimStart_empty in Hr. rewrite Hr. reflexivity.
  - rewrite ?app_cons. simpl. destruct (Js.isWhiteSpace a); [exact IH|].
    change (String a (s +:+ r)) with (String a s +:+ r).
    apply trimEnd_pad, Hr.
Qed.

(** X12.  White space before or after the text of a field does not matter:
    padding the string value of any text field with white space changes
    neither whether the handler throws, nor the response, nor what is
    stored. *)
Theorem X12_outer_white_space_ignored
    (v : variant) (w : World) (db : Firestore) (body : gmap string formValue)
    (k s l r : string) :
  In k textFields -> body !! k = Some (FStr s) ->
  Js.every Js.isWhiteSpace l = true -> Js.every Js.isWhiteSpace r = true ->
  lead v w db (<[k := FStr (l +:+ s +:+ r)]> body) = lead v w db body.
Proof.
  intros Hk Hs Hl Hr. unfold lead.
  rewrite (normalize_congr _ body); [reflexivity| |].
  - intros f Hf. destruct (decide (k = f)) as [<-|Hne].
    + rewrite lookup_insert_eq, Hs.
      assert (He : forall t, stringOrEmpty (Some (FStr t)) = Some t)
        by (intros [|a t]; reflexivity).
      rewrite !He. cbn [fmap option_fmap option_map].
      refine (f_equal Some _). apply trim_pad; assumption.
    + rewrite lookup_insert_ne by assumption. reflexivity.
  - intros f Hf. rewrite lookup_insert_ne; [reflexivity|].
    intros <-. unfold textFields in Hk. simpl in Hk, Hf.
    intuition (subst; discriminate).
Qed.

Lemma X12_outer_white_space_witness :
  lead ServerJs sampleWorld emptyStore
    (<["zip" := FStr ("  " +:+ "06119" +:+ " ")]> sampleBody)
  = lead ServerJs sampleWorld emptyStore sampleBody.
Proof.
  apply X12_outer_white_space_ignored;
    [unfold textFields; simpl; tauto | reflexivity | reflexivity | reflexivity].
Defined.

Lemma trimEnd_fixed s : Js.endsWithSpace s = false -> Js.trimEnd s = s.
Proof.
  induction s as [|a s IH]; [reflexivity|].
  destruct s as [|b s].
  - simpl. intros ->. reflexivity.
  - intros H. change (Js.endsWithSpace (String b s) = false) in H.
    cbn [Js.trimEnd]. cbn [Js.trimEnd] in IH. rewrite (IH H). reflexivity.
Qed.

Lemma trim_fixed s :
  Js.startsWithSpace s = false -> Js.endsWithSpace s = false -> Js.trim s = s.
Proof.
  intros Hs He. unfold Js.trim.
  assert (Js.trimStart s = s) as -> by (destruct s; simpl in *; [|rewrite Hs]; reflexivity).
  apply trimEnd_fixed, He.
Qed.

(** X13.  Normalizing is idempotent: a trimmed text is left alone by
    [trim], and a trimmed and lower-cased email by [trim] followed by
    [toLowerCase]. *)
Theorem X13_normalization_idempotent (s : string) :
  Js.trim (Js.trim s) = Js.trim s /\
  Js.toLowerCase (Js.trim (Js.toLowerCase (Js.trim s))) = Js.toLowerCase (Js.trim s).
Proof.
  destruct (trim_no_outer_space s) as [Hs He]. split.
  - apply trim_fixed; assumption.
  - rewrite (trim_fixed (Js.toLowerCase (Js.trim s)))
      by (rewrite ?toLowerCase_start, ?toLowerCase_end; assumption).
    apply toLowerCase_fixed, toLowerCase_no_upper.
Qed.

(** X14.  Without the consent field being exactly the string "yes", either
    the conversion of a text field throws, and the handler with it, before
    anything is fetched or stored; or the response is one of the first
    three 400 pages, nothing is fetched and nothing is stored. *)
Theorem X14_no_consent_nothing_stored
    (v : variant) (w : World) (db : Firestore) (body : gmap string formValue) :
  body !! "concent" <> Some (FStr "yes") ->
  (lead v w db body = None /\
   Exists (fun k => stringOrEmpty (body !! k) = None) textFields) \/
  (exists out,
     lead v w db body = Some out /\
     Forall (fun k => stringOrEmpty (body !! k) <> None) textFields /\
     (response out = BadRequest MissingRequired \/
      response out = BadRequest InvalidEmail \/
      response out = BadRequest ConsentRequired) /\
     store out = db /\ requests out = []).
Proof.
  intros Hno. destruct (normalize body) as [c|] eqn:Hn.
  - right. exists (handle v w db c). split; [apply lead_Some, Hn|].
    split.
    { apply Forall_Exists_neg. rewrite <- normalize_None. congruence. }
    assert (Hc : publicUserConcent c = false).
    { destruct (publicUserConcent c) eqn:H; [|reflexivity].
      apply (normalize_shape body c Hn) in H. contradiction. }
    unfold handle. rewrite validate_firstFailure.
    unfold specChecks. cbn [firstFailure]. rewrite Hc. cbn [negb].
    repeat match goal with
           | |- context [if ?b then _ else _] => destruct b
           end; simpl; auto.
  - left. split; [apply lead_None, Hn | apply normalize_None, Hn].
Qed.

Lemma X14_no_consent_witness :
  store <$> lead ServerJs sampleWorld emptyStore
              (<["concent" := FArr [FStr "yes"; FStr "yes"]]> sampleBody)
  = Some emptyStore.
Proof.
  assert (Hno : <["concent" := FArr [FStr "yes"; FStr "yes"]]> sampleBody !! "concent"
                <> Some (FStr "yes")) by (vm_compute; discriminate).
  destruct (X14_no_consent_nothing_stored ServerJs sampleWorld emptyStore _ Hno)
    as [[Hthrow _] | (out & Hout & _ & _ & Hs & _)].
  - vm_compute in Hthrow. discriminate Hthrow.
  - rewrite Hout. exact (f_equal Some Hs).
Defined.

(* ===================================================================== *)
(** * Budget digits, URLs and patterns *)
(* ===================================================================== *)

Lemma removeNonDigits_app s t :
  Js.removeNonDigits (s +:+ t) = Js.removeNonDigits s +:+ Js.removeNonDigits t.
Proof.
  induction s as [|a s IH]; [reflexivity|].
  rewrite ?app_cons. simpl. destruct (Js.isDigit a); rewrite IH; reflexivity.
Qed.

Lemma decimalFrom_shift b : forall acc,
  Js.decimalFrom acc b =
  (acc * 10 ^ N.of_nat (String.length b) + Js.decimalFrom 0 b)%N.
Proof.
  induction b as [|a b IH]; intros acc.
  - simpl. lia.
  - cbn [Js.decimalFrom String.length]. rewrite IH, (IH (10 * 0 + _)%N).
    rewrite Nat2N.inj_succ, N.pow_succ_r'. lia.
Qed.

Lemma decimalFrom_app a b : forall acc,
  Js.decimalFrom acc (a +:+ b) = Js.decimalFrom (Js.decimalFrom acc a) b.
Proof.
  induction a as [|x a IH]; intros acc; [reflexivity|].
  rewrite ?app_cons. simpl. apply IH.
Qed.

Lemma decimal_app a b :
  Js.decimal (a +:+ b) =
  (Js.decimal a * 10 ^ N.of_nat (String.length b) + Js.decimal b)%N.
Proof.
  unfold Js.decimal. rewrite decimalFrom_app. apply decimalFrom_shift.
Qed.

(** X15.  Characters that are not digits are dropped wherever they stand,
    a sign or a decimal point included, and the digits on both sides are
    read as one integer: for a budget text [s ++ t] with at least one
    digit, the budget is the Number nearest to the integer of the digits
    of [s] followed by the digits of [t], and that integer itself when it
    is below [2^53]. *)
Theorem X15_budget_digits_are_joined
    (body : gmap string formValue) (c : Candidate) (s t : string) :
  normalize body = Some c ->
  rawBudget c = s +:+ t ->
  budgetDigits c <> "" ->
  let n := (Js.decimal (Js.removeNonDigits s) *
            10 ^ N.of_nat (String.length (Js.removeNonDigits t)) +
            Js.decimal (Js.removeNonDigits t))%N in
  budgetDigits c = Js.removeNonDigits s +:+ Js.removeNonDigits t /\
  budgetNumber c = Some (Js.ofZ (Z.of_N n)) /\
  ((Z.of_N n < 2 ^ 53)%Z -> budgetNumber c ≫= Js.integerValue = Some (Z.of_N n)).
Proof.
  intros Hc Hraw Hne n. destruct (normalize_budget body c Hc) as (Hd & _ & Hn).
  rewrite Hraw, removeNonDigits_app in Hd.
  assert (Hnum : budgetNumber c = Some (Js.ofZ (Z.of_N n))).
  { rewrite Hn. apply truthy_true in Hne. rewrite Hne, Hd, decimal_app. reflexivity. }
  split_and!; [exact Hd | exact Hnum |].
  intros Hlt. rewrite Hnum. simpl. apply ofZ_exact. lia.
Qed.

Lemma X15_budget_digits_witness :
  exists c,
    normalize (<["budgetText" := FStr "-1,200.50"]> sampleBody) = Some c /\
    budgetNumber c = Some (Js.ofZ 120050) /\
    budgetNumber c ≫= Js.integerValue = Some 120050%Z.
Proof.
  destruct (normalize (<["budgetText" := FStr "-1,200.50"]> sampleBody))
    as [c|] eqn:Hn; [|vm_compute in Hn; discriminate Hn].
  destruct (X15_budget_digits_are_joined _ c "-1,200" ".50" Hn) as (_ & H & He).
  - vm_compute in Hn. injection Hn as <-. reflexivity.
  - vm_compute in Hn. injection Hn as <-. discriminate.
  - exists c. split_and!; [reflexivity | exact H | apply He; reflexivity].
Defined.

Lemma encodeChar_safe a : Js.every urlSafe (Js.encodeChar a) = true.
Proof. destruct a as [[] [] [] [] [] [] [] []]; vm_compute; reflexivity. Qed.

Lemma encodeURIComponent_safe s :
  Js.every urlSafe (Js.encodeURIComponent s) = true.
Proof.
  induction s as [|a s IH]; [reflexivity|].
  simpl. rewrite every_app, encodeChar_safe, IH. reflexivity.
Qed.

Lemma count_app c s t : count c (s +:+ t) = count c s + count c t.
Proof.
  induction s as [|a s IH]; [reflexivity|].
  rewrite ?app_cons. simpl. rewrite IH. lia.
Qed.

Lemma count_none (p : ascii -> bool) c s :
  p c = false -> Js.every p s = true -> count c s = 0.
Proof.
  intros Hc. induction s as [|a s IH]; simpl; [reflexivity|].
  rewrite andb_true_iff. intros [Ha Hs].
  destruct (Ascii.eqb_spec a c) as [->|_]; [congruence | auto].
Qed.

(** X16.  Whatever the ZIP text and the key are, the URL the geocoder
    fetches has one [?], one [&], two [=] and neither [#] nor space: the
    address and the key are escaped, so that neither can add a parameter
    to the query or cut it short. *)
Theorem X16_geocode_url_has_two_parameters (zip' key : string) :
  (exists address k,
     geocodeUrl zip' key =
       "https://maps.googleapis.com/maps/api/geocode/json?address=" +:+ address +:+
       "&key=" +:+ k /\
     Js.every urlSafe address = true /\ Js.every urlSafe k = true) /\
  count "?" (geocodeUrl zip' key) = 1 /\
  count "&" (geocodeUrl zip' key) = 1 /\
  count "=" (geocodeUrl zip' key) = 2 /\
  count "#" (geocodeUrl zip' key) = 0 /\
  count " " (geocodeUrl zip' key) = 0.
Proof.
  pose proof (encodeURIComponent_safe (zip' +:+ ", USA")) as Ha.
  pose proof (encodeURIComponent_safe key) as Hk.
  split.
  - exists (Js.encodeURIComponent (zip' +:+ ", USA")), (Js.encodeURIComponent key).
    split_and!; [reflexivity | exact Ha | exact Hk].
  - unfold geocodeUrl. rewrite !count_app.
    split_and!;
      [ rewrite (count_none urlSafe "?" _ eq_refl Ha), (count_none urlSafe "?" _ eq_refl Hk)
      | rewrite (count_none urlSafe "&" _ eq_refl Ha), (count_none urlSafe "&" _ eq_refl Hk)
      | rewrite (count_none urlSafe "=" _ eq_refl Ha), (count_none urlSafe "=" _ eq_refl Hk)
      | rewrite (count_none urlSafe "#" _ eq_refl Ha), (count_none urlSafe "#" _ eq_refl Hk)
      | rewrite (count_none urlSafe " " _ eq_refl Ha), (count_none urlSafe " " _ eq_refl Hk) ];
      reflexivity.
Qed.

Lemma toLowerCase_idempotent s : Js.toLowerCase (Js.toLowerCase s) = Js.toLowerCase s.
Proof. apply toLowerCase_fixed, toLowerCase_no_upper. Qed.

(** X17.  Both store redirects look at the user agent without regard to
    letter case: a user agent and its lower-cased text get the same
    answer. *)
Theorem X17_user_agent_case_ignored (v : variant) (ua : string) :
  go v (Some (Js.toLowerCase ua)) = go v (Some ua) /\
  download v (Some (Js.toLowerCase ua)) = download v (Some ua).
Proof.
  unfold go, download, orEmpty. rewrite toLowerCase_idempotent. auto.
Qed.

(** X18.  [/go] and [/download] classify a browser alike: one answers with
    an Android link exactly when the other does, and likewise for iOS.
    They give the very same answer inside an in-app browser and for a
    browser that is neither Android nor iOS. *)
Theorem X18_go_and_download_agree (v : variant) (userAgent : option string) :
  let ual := Js.toLowerCase (orEmpty userAgent) in
  let g := redirectTo (go v userAgent) in
  let d := redirectTo (download v userAgent) in
  ((g = AND_INTENT \/ g = AND_HTTPS) <-> d = AND_HTTPS) /\
  ((g = IOS_ITMS \/ g = IOS_HTTPS) <-> d = IOS_HTTPS) /\
  (g = fallback v <-> d = fallback v) /\
  (isInApp ual = true \/ isAndroid ual = false /\ isIOS ual = false ->
   go v userAgent = download v userAgent).
Proof.
  intros ual g d. subst g d. unfold go, download. fold ual.
  unfold isAndroid, isIOS.
  destruct (Js.includes ual "android");
    [|destruct (Js.includes ual "iphone" || Js.includes ual "ipad" ||
                Js.includes ual "ipod")];
    destruct (isInApp ual), v; cbn [negb redirectTo];
    (split_and!;
     [ split; [intros [H|H] | intros H]; vm_compute in H |- *;
       first [discriminate H | auto]
     | split; [intros [H|H] | intros H]; vm_compute in H |- *;
       first [discriminate H | auto]
     | split; intros H; vm_compute in H |- *; first [discriminate H | auto]
     | intros [H|[H1 H2]]; first [discriminate | reflexivity] ]).
Qed.

Lemma X18_go_and_download_witness :
  go ServerJs (Some uaAndroidFacebook) = download ServerJs (Some uaAndroidFacebook) /\
  go ServerJs (Some uaDesktop) = download ServerJs (Some uaDesktop).
Proof.
  split.
  - apply X18_go_and_download_agree. left. vm_compute. reflexivity.
  - apply X18_go_and_download_agree. right. split; vm_compute; reflexivity.
Defined.


(** X20.  The geocoder returns a result exactly when the key is set and not
    empty, the response has a success status and a JSON body whose status
    is OK, and the first of its results has a numeric latitude and
    longitude; the result is made of those two numbers and of the town and
    state of that first result.  Later results are not looked at. *)
Theorem X20_geocoder_success (w : World) (zip' : string) (geo : GeoResult) :
  (geocodeZipWithGoogle w zip').2 = inr geo <->
  exists key httpStatus data r rest la ln,
    GOOGLE_GEOCODING_API_KEY w = Some key /\ key <> "" /\
    fetch w (geocodeUrl zip' key) = Responds httpStatus (Some data) /\
    ok httpStatus = true /\
    status data = Some "OK" /\ results data = Some (r :: rest) /\
    geometry r ≫= location = Some {| lat := JNum la; lng := JNum ln |} /\
    geo = {| latitude := la; longitude := ln;
             userTown := (extractTownState r).1;
             userState := (extractTownState r).2 |}.
Proof.
  split.
  - intros (key & st & data & r & rest & Hk & Hne & Hf & Hok & Hs & Hr & Hl & Ht & Hu)
      %geocode_success_inv.
    exists key, st, data, r, rest, (latitude geo), (longitude geo).
    split_and!; try assumption. destruct geo. simpl in *. congruence.
  - intros (key & st & data & r & rest & la & ln & Hk & Hne%truthy_true & Hf & Hok
            & Hs & Hr & Hl & ->).
    unfold geocodeZipWithGoogle. rewrite Hk, Hne. cbn [negb].
    rewrite Hf, Hok. cbn [negb snd].
    rewrite (readGeocodeData_ok _ _ _ Hs Hr), Hl. reflexivity.
Qed.

(** X21.  An email the pattern accepts has exactly one [@], no white space
    anywhere and at least six characters. *)
Theorem X21_valid_email_facts (e : string) :
  isValidEmail e = true ->
  count "@" e = 1 /\
  Js.every (fun a => negb (Js.isWhiteSpace a)) e = true /\
  6 <= String.length e.
Proof.
  intros (l & x & y & -> & Hl & Hx & Hy & Hel & Hex & Hey)%email_pattern.
  assert (Hat : RegExp.notSpaceAt "@" = false) by reflexivity.
  assert (Hns : forall s, Js.every RegExp.notSpaceAt s = true ->
                          Js.every (fun a => negb (Js.isWhiteSpace a)) s = true).
  { induction s as [|a s IH]; simpl; [reflexivity|].
    rewrite !andb_true_iff. intros [Ha Hs]. split; [|auto].
    unfold RegExp.notSpaceAt in Ha. rewrite negb_orb in Ha.
    apply andb_true_iff in Ha as [Ha _]. exact Ha. }
  split_and!.
  - rewrite !count_app.
    rewrite (count_none _ _ _ Hat Hel), (count_none _ _ _ Hat Hex),
      (count_none _ _ _ Hat Hey). reflexivity.
  - rewrite !every_app, (Hns _ Hel), (Hns _ Hex), (Hns _ Hey). reflexivity.
  - rewrite !length_app. destruct l, x; try congruence. simpl. lia.
Qed.

Lemma X21_valid_email_witness :
  count "@" "ann.lee@example.com" = 1 /\ 6 <= String.length "ann.lee@example.com".
Proof.
  destruct (X21_valid_email_facts "ann.lee@example.com") as (H1 & _ & H3);
    [vm_compute; reflexivity|].
  split; [exact H1 | exact H3].
Defined.
